(** * The error-response and logging pipeline of the Tarot API service

  A shallow embedding of [server.py], [src/utils/logger.py] and
  [src/config/app.py], with the parts of Python, loguru, the standard
  [logging] module and Starlette/FastAPI that these files call.

  Text is modelled by [string] (one character per code point below 256),
  Python [int] by [Z], Python dictionaries whose order is observable
  (JSON bodies, TOML documents) by association lists, header tables and
  the logger registry by finite maps. Code that logs threads the list of
  events it has produced through a small state monad. *)

From Stdlib Require Import ZArith Ascii String List.
From stdpp Require Import base option strings list gmap pretty.

Set Warnings "-register-all".

Local Open Scope Z_scope.
Local Open Scope string_scope.

(** ** Python values and built-ins *)

Module Py.

(** The values that occur in JSON bodies, TOML documents and validator
    output. *)
Inductive value : Type :=
| VNone
| VBool (b : bool)
| VInt (n : Z)
| VStr (s : string)
| VList (l : list value)
| VTuple (l : list value)
| VDict (kv : list (string * value)).

(** [d.get(key)] on a dictionary: the first binding of [key]. *)
Fixpoint dict_lookup (key : string) (kv : list (string * value)) : option value :=
  match kv with
  | [] => None
  | (k, v) :: rest => if String.eqb k key then Some v else dict_lookup key rest
  end.

(** [sep.join(parts)] *)
Fixpoint join (sep : string) (parts : list string) : string :=
  match parts with
  | [] => ""
  | [p] => p
  | p :: rest => p +:+ sep +:+ join sep rest
  end.

(** [s.split(sep)] for a one-character separator. *)
Fixpoint split (sep : ascii) (s : string) : list string :=
  match s with
  | "" => [""]
  | String c s' =>
      if Ascii.eqb c sep then "" :: split sep s'
      else match split sep s' with
           | [] => [String c ""]
           | w :: ws => String c w :: ws
           end
  end.

(** [str.isspace] on one character. *)
Definition is_space (c : ascii) : bool :=
  let n := nat_of_ascii c in
  ((9 <=? n) && (n <=? 13) || (28 <=? n) && (n <=? 32) || (n =? 133) || (n =? 160))%nat.

Fixpoint lstrip_chars (p : ascii -> bool) (s : string) : string :=
  match s with
  | "" => ""
  | String c s' => if p c then lstrip_chars p s' else s
  end.

Fixpoint rstrip_chars (p : ascii -> bool) (s : string) : string :=
  match s with
  | "" => ""
  | String c s' =>
      match rstrip_chars p s' with
      | "" => if p c then "" else String c ""
      | r => String c r
      end
  end.

(** [s.strip()] and [s.rstrip(chars)] for a one-character [chars]. *)
Definition strip (s : string) : string := rstrip_chars is_space (lstrip_chars is_space s).
Definition rstrip (ch : ascii) (s : string) : string := rstrip_chars (Ascii.eqb ch) s.

(** Truth value of a string: non-empty. *)
Definition truthy (s : string) : bool :=
  match s with "" => false | _ => true end.

(** Truth value of a value, as [assert] and [if] take it. *)
Definition truth (v : value) : bool :=
  match v with
  | VNone => false
  | VBool b => b
  | VInt n => negb (n =? 0)%Z
  | VStr s => truthy s
  | VList l | VTuple l => match l with [] => false | _ => true end
  | VDict kv => match kv with [] => false | _ => true end
  end.

Fixpoint mem (c : ascii) (s : string) : bool :=
  match s with
  | "" => false
  | String d s' => Ascii.eqb c d || mem c s'
  end.

(** [str(n)] for an integer. *)
Definition str_int (n : Z) : string := pretty n.

Definition hex_digit (n : nat) : ascii :=
  match n with
  | 0 => "0" | 1 => "1" | 2 => "2" | 3 => "3" | 4 => "4" | 5 => "5"
  | 6 => "6" | 7 => "7" | 8 => "8" | 9 => "9" | 10 => "a" | 11 => "b"
  | 12 => "c" | 13 => "d" | 14 => "e" | _ => "f"
  end%nat%char.

Definition hex_escape (c : ascii) : string :=
  let n := nat_of_ascii c in
  String "\" (String "x" (String (hex_digit (n / 16)) (String (hex_digit (n mod 16)) ""))).

(** The double quote character. *)
Definition dquote : ascii := "034"%char.

(** The quote [repr] chooses: a double quote only when the text holds a
    single quote and no double quote. *)
Definition repr_quote (s : string) : ascii :=
  if mem "'" s && negb (mem dquote s) then dquote else "'"%char.

(** Whether [repr] of a [str] prints the character as it is. *)
Definition printable (c : ascii) : bool :=
  let n := nat_of_ascii c in
  ((32 <=? n) && (n <? 127) || (161 <=? n) && negb (n =? 173))%nat.

Definition repr_char (bytes_mode : bool) (quote c : ascii) : string :=
  let n := nat_of_ascii c in
  if Ascii.eqb c quote || Ascii.eqb c "\" then String "\" (String c "")
  else if (n =? 9)%nat then "\t"
  else if (n =? 10)%nat then "\n"
  else if (n =? 13)%nat then "\r"
  else if bytes_mode && (127 <=? n)%nat then hex_escape c
  else if printable c then String c ""
  else hex_escape c.

Fixpoint repr_chars (bytes_mode : bool) (quote : ascii) (s : string) : string :=
  match s with
  | "" => ""
  | String c s' => repr_char bytes_mode quote c +:+ repr_chars bytes_mode quote s'
  end.

(** [repr(s)] for a [str] and for a [bytes] object. *)
Definition repr_str (s : string) : string :=
  let q := repr_quote s in
  String q (repr_chars false q s) +:+ String q "".

Definition repr_bytes (s : string) : string :=
  let q := repr_quote s in
  String "b" (String q (repr_chars true q s)) +:+ String q "".

(** [repr(v)] *)
Fixpoint repr (v : value) : string :=
  match v with
  | VNone => "None"
  | VBool true => "True"
  | VBool false => "False"
  | VInt n => str_int n
  | VStr s => repr_str s
  | VList l => "[" +:+ join ", " (map repr l) +:+ "]"
  | VTuple l =>
      match l with
      | [x] => "(" +:+ repr x +:+ ",)"
      | _ => "(" +:+ join ", " (map repr l) +:+ ")"
      end
  | VDict kv =>
      "{" +:+ join ", " (map (fun p => repr_str (fst p) +:+ ": " +:+ repr (snd p)) kv) +:+ "}"
  end.

(** [str(v)], which is what an f-string shows: text as it is, anything
    else as [repr] prints it. *)
Definition str (v : value) : string :=
  match v with
  | VStr s => s
  | _ => repr v
  end.

(** [n] copies of the character [fill]. *)
Fixpoint pad (fill : ascii) (n : nat) : string :=
  match n with
  | O => ""
  | S n' => String fill (pad fill n')
  end.

(** [text.ljust(width)]: padded with spaces on the right, never cut. *)
Definition ljust (width : nat) (s : string) : string :=
  s +:+ pad " " (width - String.length s).

(** The line feed, written [\n] in the source. *)
Definition nl : string := String "010"%char "".

Definition lower_char (c : ascii) : ascii :=
  let n := nat_of_ascii c in
  if ((65 <=? n) && (n <=? 90))%nat then ascii_of_nat (n + 32) else c.

Fixpoint map_chars (f : ascii -> ascii) (s : string) : string :=
  match s with
  | "" => ""
  | String c s' => String (f c) (map_chars f s')
  end.

(** [s.lower()] on the ASCII letters, which is all that header names
    hold. *)
Definition lower : string -> string := map_chars lower_char.

End Py.

(** ** loguru: levels, records, and the sink's rendering of a format *)

Module Loguru.

(** The severities loguru knows at start. *)
Definition levels : list (string * Z) :=
  [("TRACE", 5); ("DEBUG", 10); ("INFO", 20); ("SUCCESS", 25);
   ("WARNING", 30); ("ERROR", 40); ("CRITICAL", 50)].

Fixpoint assoc (key : string) (tbl : list (string * Z)) : option Z :=
  match tbl with
  | [] => None
  | (k, v) :: rest => if String.eqb k key then Some v else assoc key rest
  end.

Record Level := { level_name : string; level_no : Z }.

(** [logger.level(name)]; [None] stands for the [ValueError] raised on
    a name that does not exist. *)
Definition level (name : string) : option Level :=
  match assoc name levels with
  | Some no => Some {| level_name := name; level_no := no |}
  | None => None
  end.

(** The frame loguru inspects: module name, function and line of the
    code that called the logging method. *)
Record Frame := { frame_name : string; frame_function : string; frame_line : Z }.

(** A record as the sink sees it. [time] is the record's datetime,
    given by its [__format__] method. *)
Record Record_ := {
  time : string -> string;
  rlevel : Level;
  name : string;
  function : string;
  line : Z;
  message : string;
  extra : gmap string string;
  exception : option string
}.

(** The first argument of [logger.log]: a level name or a number. *)
Inductive LevelArg := ByName (n : string) | ByNo (no : Z).

(** [logger.log(level, message)] seen from the record it builds for the
    handlers. A level name that does not exist and a negative number
    raise [ValueError]: [None]. *)
Definition log (now : string -> string) (fr : Frame) (bound : gmap string string)
    (exc : option string) (lv : LevelArg) (msg : string) : option Record_ :=
  let mk l := {| time := now; rlevel := l; name := frame_name fr;
                 function := frame_function fr; line := frame_line fr;
                 message := msg; extra := bound; exception := exc |} in
  match lv with
  | ByName n => mk <$> level n
  | ByNo no =>
      if (no <? 0)%Z then None
      else Some (mk {| level_name := "Level " +:+ Py.str_int no; level_no := no |})
  end.

(** What rendering a format template gives: a line, the error that
    [str.format_map] raises, or a construct this model leaves out. *)
Inductive Rendered := Line (s : string) | FormatError | Unsupported.

Definition prepend (pre : string) (r : Rendered) : Rendered :=
  match r with
  | Line s => Line (pre +:+ s)
  | other => other
  end.

Definition is_digit (c : ascii) : bool :=
  let n := nat_of_ascii c in ((48 <=? n) && (n <=? 57))%nat.

Fixpoint all_digits (s : string) : bool :=
  match s with
  | "" => true
  | String c s' => is_digit c && all_digits s'
  end.

Fixpoint nat_of_digits (acc : nat) (s : string) : nat :=
  match s with
  | "" => acc
  | String c s' => nat_of_digits (10 * acc + (nat_of_ascii c - 48))%nat s'
  end.

Definition is_align (c : ascii) : bool := Py.mem c "<>^=".

(** The width part of a format spec: digits, not starting with the
    zero flag. *)
Definition pad_to (fill align : ascii) (width : string) (s : string) : Rendered :=
  match width with
  | String "0" _ => Unsupported
  | _ =>
      if all_digits width then
        let pad := Py.pad fill (nat_of_digits 0 width - String.length s) in
        if Ascii.eqb align "<" then Line (s +:+ pad)
        else if Ascii.eqb align ">" then Line (pad +:+ s)
        else if Ascii.eqb align "=" then FormatError
        else Unsupported
      else Unsupported
  end.

(** [format(s, spec)] for a [str]: [[fill]align][width]. *)
Definition format_str (spec : string) (s : string) : Rendered :=
  match spec with
  | "" => Line s
  | String c1 (String c2 rest) =>
      if is_align c2 then pad_to c1 c2 rest s
      else if is_align c1 then pad_to " " c1 (String c2 rest) s
      else pad_to " " "<" spec s
  | String c1 "" =>
      if is_align c1 then pad_to " " c1 "" s else pad_to " " "<" spec s
  end.

Definition format_int (spec : string) (n : Z) : Rendered :=
  match spec with
  | "" => Line (Py.str_int n)
  | _ => Unsupported
  end.

(** Splits the text between the braces at its first colon. *)
Fixpoint split_field (s : string) : string * option string :=
  match s with
  | "" => ("", None)
  | String c s' =>
      if Ascii.eqb c ":" then ("", Some s')
      else let '(n, sp) := split_field s' in (String c n, sp)
  end.

Definition unmodelled_keys : list string :=
  ["elapsed"; "exception"; "extra"; "file"; "module"; "process"; "thread"].

(** One replacement field [{key}] or [{key:spec}] looked up in the
    record. Attribute and index access and conversions are left out. *)
Definition format_field (r : Record_) (field : string) : Rendered :=
  let '(key, ospec) := split_field field in
  let spec := default "" ospec in
  if Py.mem "." key || Py.mem "[" key || Py.mem "!" key then Unsupported
  else if String.eqb key "time" then Line (time r spec)
  else if String.eqb key "level" then format_str spec (level_name (rlevel r))
  else if String.eqb key "name" then format_str spec (name r)
  else if String.eqb key "function" then format_str spec (function r)
  else if String.eqb key "line" then format_int spec (line r)
  else if String.eqb key "message" then format_str spec (message r)
  else if existsb (String.eqb key) unmodelled_keys then Unsupported
  else FormatError.

Definition and_then (r : Rendered) (k : Rendered) : Rendered :=
  match r with
  | Line s => prepend s k
  | other => other
  end.

(** [template.format_map(record)], after the sink has looked for colour
    markup in the literal text (a [<] there is left out of the model).
    [fld] holds the text of the replacement field being read. *)
Fixpoint format_go (r : Record_) (fld : option string) (s : string) : Rendered :=
  match s with
  | "" => match fld with None => Line "" | Some _ => FormatError end
  | String c s' =>
      match fld with
      | Some acc =>
          if Ascii.eqb c "}" then and_then (format_field r acc) (format_go r None s')
          else if Ascii.eqb c "{" then Unsupported
          else format_go r (Some (acc +:+ String c "")) s'
      | None =>
          if Ascii.eqb c "{" then
            match s' with
            | String "{" s'' => prepend "{" (format_go r None s'')
            | _ => format_go r (Some "") s'
            end
          else if Ascii.eqb c "}" then
            match s' with
            | String "}" s'' => prepend "}" (format_go r None s'')
            | _ => FormatError
            end
          else if Ascii.eqb c "<" then Unsupported
          else prepend (String c "") (format_go r None s')
      end
  end.

Definition format_map (template : string) (r : Record_) : Rendered :=
  format_go r None template.

(** A handler added with a callable format: the minimum severity and
    the function that returns the template for a record. *)
Record Handler := { levelno : Z; formatter : Record_ -> string }.

(** What the handler writes for a record: nothing below its level. *)
Definition handler_emit (h : Handler) (r : Record_) : option Rendered :=
  if (level_no (rlevel r) <? levelno h)%Z then None
  else Some (format_map (formatter h r) r).

End Loguru.

(** ** The standard [logging] module: records, loggers, level names *)

Module Logging.

(** A record made by a call such as [logging.getLogger(n).info(...)].
    [getMessage] is the message with its arguments merged in, what the
    call [record.getMessage()] returns. A record whose arguments do not
    fit its format, on which that call raises [TypeError], is not a value
    of this type. *)
Record LogRecord := {
  name : string;
  levelname : string;
  levelno : Z;
  funcName : string;
  lineno : Z;
  getMessage : string;
  exc_info : option string
}.

Inductive Handler := InterceptHandler | StreamHandler (stream : string).

Record Logger := { handlers : list Handler; level : Z; propagate : bool }.

Definition WARNING : Z := 30.

(** [getattr(logging, name)] on a level name; [None] stands for
    [AttributeError]. Only names that loguru has accepted get here. *)
Definition getattr (attr : string) : option Z :=
  Loguru.assoc attr
    [("CRITICAL", 50); ("FATAL", 50); ("ERROR", 40); ("WARNING", 30);
     ("WARN", 30); ("INFO", 20); ("DEBUG", 10); ("NOTSET", 0)].

(** A logger as [getLogger] creates it the first time it is asked for. *)
Definition fresh : Logger := {| handlers := []; level := 0; propagate := true |}.

Definition root : string := "root".

Definition getLogger (n : string) (reg : gmap string Logger) : Logger :=
  default fresh (reg !! n).

End Logging.

(** ** [src/utils/logger.py] *)

Module utils_logger.

(** [format_record]: the template the sink then fills in from the
    record. The logger name is put into the template itself. *)
Definition format_record (record : Loguru.Record_) : string :=
  let logger_name :=
    default (Loguru.name record) (Loguru.extra record !! "name") in
  "{time:YYYY-MM-DD HH:mm:ss.SSS} | {level: <8} | " +:+ logger_name
    +:+ ":{function}:{line} - {message}" +:+ Py.nl.

(** The frame of the call [logger_instance.opt(...).log(...)] on line 44,
    inside [InterceptHandler.emit]: no [depth] is given to [opt]. *)
Definition emit_frame : Loguru.Frame :=
  {| Loguru.frame_name := "utils.logger";
     Loguru.frame_function := "emit";
     Loguru.frame_line := 44 |}.

(** [InterceptHandler.emit]: the record handed to loguru, or [None]
    when [logger.log] raises. *)
Definition emit (now : string -> string) (record : Logging.LogRecord)
    : option Loguru.Record_ :=
  let level :=
    match Loguru.level (Logging.levelname record) with
    | Some l => Loguru.ByName (Loguru.level_name l)
    | None => Loguru.ByNo (Logging.levelno record)
    end in
  let bound : gmap string string := <["name" := Logging.name record]> ∅ in
  Loguru.log now emit_frame bound (Logging.exc_info record) level
    (Logging.getMessage record).

(** The two logging systems that [setup_logging] configures. *)
Record State := {
  sinks : list Loguru.Handler;
  loggers : gmap string Logging.Logger
}.

Definition logger_names : list string :=
  ["uvicorn"; "uvicorn.access"; "uvicorn.error"; "fastapi"; "asyncio"].

Definition noisy_logger_names : list string :=
  ["httpx"; "httpcore"; "httpcore.connection"; "httpcore.http11";
   "httpcore.http2"; "urllib3"; "urllib3.connectionpool"].

(** The first loop. [getattr(logging, level)] is evaluated inside the
    body, after the handlers of the logger were replaced. *)
Fixpoint configure (lvl : option Z) (names : list string)
    (reg : gmap string Logging.Logger) : option string * gmap string Logging.Logger :=
  match names with
  | [] => (None, reg)
  | n :: rest =>
      let l := Logging.getLogger n reg in
      match lvl with
      | None =>
          (Some "AttributeError",
           <[n := {| Logging.handlers := [Logging.InterceptHandler];
                     Logging.level := Logging.level l;
                     Logging.propagate := Logging.propagate l |}]> reg)
      | Some v =>
          configure lvl rest
            (<[n := {| Logging.handlers := [Logging.InterceptHandler];
                       Logging.level := v;
                       Logging.propagate := false |}]> reg)
      end
  end.

(** The body of the second loop. *)
Definition silence (reg : gmap string Logging.Logger) (n : string)
    : gmap string Logging.Logger :=
  <[n := {| Logging.handlers := [];
            Logging.level := Logging.WARNING;
            Logging.propagate := false |}]> reg.

(** [setup_logging(level)]: the exception it raises, if any, and the
    state it leaves. *)
Definition setup_logging (level : string) (st : State) : option string * State :=
  match Loguru.level level with
  | None => (Some "ValueError", {| sinks := []; loggers := loggers st |})
  | Some l =>
      let sinks' := [{| Loguru.levelno := Loguru.level_no l;
                        Loguru.formatter := format_record |}] in
      let r := Logging.getLogger Logging.root (loggers st) in
      let reg0 :=
        <[Logging.root := {| Logging.handlers := [Logging.InterceptHandler];
                             Logging.level := 0;
                             Logging.propagate := Logging.propagate r |}]> (loggers st) in
      match configure (Logging.getattr level) logger_names reg0 with
      | (Some e, reg1) => (Some e, {| sinks := sinks'; loggers := reg1 |})
      | (None, reg1) =>
          (None, {| sinks := sinks';
                    loggers := foldl silence reg1 noisy_logger_names |})
      end
  end.

End utils_logger.

(** ** [src/config/app.py] *)

Module config_app.

Definition getenv (env : gmap string string) (key fallback : string) : string :=
  default fallback (env !! key).

Definition BASE_WEB_URL (env : gmap string string) : string :=
  getenv env "BASE_WEB_URL" "http://localhost:4321".

Definition ALLOWED_ORIGINS_RAW (env : gmap string string) : string :=
  getenv env "ALLOWED_ORIGINS" (BASE_WEB_URL env).

Definition parse_origins (raw : string) : list string :=
  map (fun origin => Py.rstrip "/" (Py.strip origin))
      (List.filter (fun origin => Py.truthy (Py.strip origin)) (Py.split "," raw)).

Definition ALLOWED_ORIGINS (env : gmap string string) : list string :=
  parse_origins (ALLOWED_ORIGINS_RAW env).

End config_app.

(** ** [urllib.parse] *)

Module Urllib.

Definition is_ascii_alpha (c : ascii) : bool :=
  let n := nat_of_ascii c in
  ((65 <=? n) && (n <=? 90) || (97 <=? n) && (n <=? 122))%nat.

(** Membership in [scheme_chars]: letters, digits, [+], [-] and [.]. *)
Definition scheme_char (c : ascii) : bool :=
  let n := nat_of_ascii c in
  is_ascii_alpha c || ((48 <=? n) && (n <=? 57))%nat || Py.mem c "+-.".

Fixpoint all_scheme_chars (s : string) : bool :=
  match s with
  | "" => true
  | String c s' => scheme_char c && all_scheme_chars s'
  end.

(** The characters of [_WHATWG_C0_CONTROL_OR_SPACE]. *)
Definition c0_control_or_space (c : ascii) : bool := (nat_of_ascii c <=? 32)%nat.

(** The characters of [_UNSAFE_URL_BYTES_TO_REMOVE]: tab, carriage
    return and line feed. *)
Definition unsafe_char (c : ascii) : bool :=
  let n := nat_of_ascii c in ((n =? 9) || (n =? 13) || (n =? 10))%nat.

Fixpoint remove_chars (p : ascii -> bool) (s : string) : string :=
  match s with
  | "" => ""
  | String c s' => if p c then remove_chars p s' else String c (remove_chars p s')
  end.

(** The text before the first [:] and the text after it. *)
Fixpoint split_colon (s : string) : option (string * string) :=
  match s with
  | "" => None
  | String c s' =>
      if Ascii.eqb c ":" then Some ("", s')
      else match split_colon s' with
           | Some (before, rest) => Some (String c before, rest)
           | None => None
           end
  end.

(** The URL without its scheme, when it begins with one. *)
Definition strip_scheme (url : string) : string :=
  match split_colon url with
  | Some (String c before, rest) =>
      if is_ascii_alpha c && all_scheme_chars (String c before) then rest else url
  | _ => url
  end.

(** [_splitnetloc]: what follows the network location, which ends at
    the first of [/], [?] and [#]. *)
Fixpoint after_netloc (s : string) : string :=
  match s with
  | "" => ""
  | String c s' => if Py.mem c "/?#" then s else after_netloc s'
  end.

Definition strip_netloc (url : string) : string :=
  match url with
  | String "/" (String "/" rest) => after_netloc rest
  | _ => url
  end.

(** The text before the first [#] or [?]. *)
Fixpoint before_query_or_fragment (s : string) : string :=
  match s with
  | "" => ""
  | String c s' => if Py.mem c "?#" then "" else String c (before_query_or_fragment s')
  end.

(** The [path] component of [urlsplit(url)]. The function raises
    [ValueError] for a network location with brackets that do not hold an
    IPv6 address; such a URL is given the path the remaining steps
    compute. *)
Definition urlsplit_path (url : string) : string :=
  let url := Py.lstrip_chars c0_control_or_space url in
  let url := remove_chars unsafe_char url in
  before_query_or_fragment (strip_netloc (strip_scheme url)).

End Urllib.

(** ** Starlette and FastAPI: requests, responses, the middleware stack *)

Module Starlette.

Inductive Scheme := Http | Https.

Definition scheme_name (s : Scheme) : string :=
  match s with
  | Http => "http"
  | Https => "https"
  end.

Definition default_port (s : Scheme) : Z :=
  match s with
  | Http => 80
  | Https => 443
  end.

(** What [await request.body()] comes to when an exception handler
    calls it: the bytes of the body, or [RuntimeError("Stream consumed")]
    when the stream was read without being kept, as it is after a form
    was parsed. *)
Inductive Body := Received (b : string) | Consumed.

(** A request as the connection scope gives it. [target] is
    [scope["path"]], the path of the request target, which the router
    matches; [server] is the address the server listens on, if the scope
    has one. Header tables are keyed by the lower-case header name. *)
Record Request := {
  method : string;
  target : string;
  query_string : string;
  scheme : Scheme;
  server : option (string * Z);
  headers : gmap string string;
  body : Body
}.

(** [request.url]: the text [URL(scope=...)] puts together from the
    [Host] header or, without one, from the server address. The
    application is mounted at the root, so the path of the scope is the
    path of the request target. *)
Definition url (r : Request) : string :=
  let base :=
    match headers r !! "host" with
    | Some host_header => scheme_name (scheme r) +:+ "://" +:+ host_header +:+ target r
    | None =>
        match server r with
        | None => target r
        | Some (host, port) =>
            if (port =? default_port (scheme r))%Z
            then scheme_name (scheme r) +:+ "://" +:+ host +:+ target r
            else scheme_name (scheme r) +:+ "://" +:+ host +:+ ":" +:+ Py.str_int port
                   +:+ target r
        end
    end in
  if Py.truthy (query_string r) then base +:+ "?" +:+ query_string r else base.

(** [request.url.path], which is what [server.py] reads wherever it
    names the path of a request. *)
Definition path (r : Request) : string := Urllib.urlsplit_path (url r).

(** What a response was built from: [JSONResponse(content=v)],
    [PlainTextResponse(s)] or the plain [Response(content=s)]. *)
Inductive Content :=
| JSONContent (v : Py.value)
| TextContent (s : string)
| RawContent (s : string).

Record Response := {
  status_code : Z;
  content : Content;
  resp_headers : gmap string string
}.

Definition JSONResponse (status : Z) (v : Py.value) : Response :=
  {| status_code := status; content := JSONContent v; resp_headers := ∅ |}.

Record HTTPException := { exc_status_code : Z; detail : Py.value }.

(** A field-error record of the validator: a value that JSON can
    encode, or a record that holds an object JSON cannot encode (the
    exception a validator function raised, kept under [ctx], or an input
    of type [bytes]). Of the latter the model keeps what [repr] shows for
    the record and the class name of the first such object in it. *)
Inductive ErrorRecord :=
| Encodable (v : Py.value)
| Unencodable (shown : string) (cls : string).

(** [exc.errors()] *)
Record RequestValidationError := { errors : list ErrorRecord }.

Definition repr_record (r : ErrorRecord) : string :=
  match r with
  | Encodable v => Py.repr v
  | Unencodable shown _ => shown
  end.

(** [str] of the list of records, as an f-string shows it. *)
Definition repr_errors (l : list ErrorRecord) : string :=
  "[" +:+ Py.join ", " (map repr_record l) +:+ "]".

(** [json.dumps] on the list of records: the records, or the class
    name of the first object that cannot be encoded. *)
Fixpoint encode_errors (l : list ErrorRecord) : string + list Py.value :=
  match l with
  | [] => inr []
  | Encodable v :: rest =>
      match encode_errors rest with
      | inr vs => inr (v :: vs)
      | inl cls => inl cls
      end
  | Unencodable _ cls :: _ => inl cls
  end.

Inductive ExcKind :=
| IsHTTPException (e : HTTPException)
| IsRequestValidationError (e : RequestValidationError)
| IsOther.

(** A raised exception: [type(exc).__name__], [str(exc)] and the lines
    [traceback.format_exception] gives for it. [while_handling cls msg]
    is what [traceback.format_exception] gives for an exception of class
    [cls] with message [msg] that is raised while this one is being
    handled: the two tracebacks chained, with the frames of the
    installation. *)
Record Exception := {
  kind : ExcKind;
  type_name : string;
  exc_str : string;
  format_exception : list string;
  while_handling : string -> string -> list string
}.

(** The exception that leaves a handler which itself fails while it
    handles [e]. *)
Definition raised_while_handling (e : Exception) (cls msg : string) : Exception :=
  {| kind := IsOther;
     type_name := cls;
     exc_str := msg;
     format_exception := while_handling e cls msg;
     while_handling := while_handling e |}.

(** What calling an exception handler comes to: its response, or an
    exception of its own. *)
Inductive Handled := Responded (r : Response) | Failed (cls : string) (msg : string).

Inductive Outcome := Return (r : Response) | Raise (e : Exception).

(** What the process does that can be seen from outside, in order. *)
Inductive Event :=
| Logged (level : string) (msg : string)
| Sent (r : Response).

(** Code that logs: a state monad over the events so far. *)
Definition M (A : Type) : Type := list Event -> A * list Event.

#[global] Instance M_ret : MRet M := fun A a tr => (a, tr).
#[global] Instance M_bind : MBind M :=
  fun A B f m tr => f (fst (m tr)) (snd (m tr)).

Definition emit_event (e : Event) : M unit := fun tr => (tt, (tr ++ [e])%list).

Definition App : Type := Request -> M Outcome.
Definition Middleware : Type := App -> App.

(** *** [CORSMiddleware] *)

Record CORSArgs := {
  allow_origins : list string;
  allow_methods : list string;
  allow_headers : list string;
  allow_credentials : bool;
  expose_headers : list string;
  max_age : Z
}.

Definition ALL_METHODS : list string :=
  ["DELETE"; "GET"; "HEAD"; "OPTIONS"; "PATCH"; "POST"; "PUT"].
Definition SAFELISTED_HEADERS : list string :=
  ["Accept"; "Accept-Language"; "Content-Language"; "Content-Type"].

Definition inb (x : string) (l : list string) : bool := existsb (String.eqb x) l.

Fixpoint insert_sorted (x : string) (l : list string) : list string :=
  match l with
  | [] => [x]
  | y :: rest =>
      match String.compare x y with
      | Lt => x :: l
      | Eq => l
      | Gt => y :: insert_sorted x rest
      end
  end.

(** [sorted(set(l))] *)
Definition sorted_set (l : list string) : list string := foldr insert_sorted [] l.

Definition methods_of (a : CORSArgs) : list string :=
  if inb "*" (allow_methods a) then ALL_METHODS else allow_methods a.
Definition allow_all_origins (a : CORSArgs) : bool := inb "*" (allow_origins a).
Definition allow_all_headers (a : CORSArgs) : bool := inb "*" (allow_headers a).
Definition preflight_explicit_allow_origin (a : CORSArgs) : bool :=
  negb (allow_all_origins a) || allow_credentials a.
Definition sorted_allow_headers (a : CORSArgs) : list string :=
  sorted_set (SAFELISTED_HEADERS ++ allow_headers a).

Definition set_if (c : bool) (k v : string) (h : gmap string string) : gmap string string :=
  if c then <[k := v]> h else h.

Definition simple_headers (a : CORSArgs) : gmap string string :=
  set_if (match expose_headers a with [] => false | _ => true end)
    "access-control-expose-headers" (Py.join ", " (expose_headers a))
    (set_if (allow_credentials a) "access-control-allow-credentials" "true"
       (set_if (allow_all_origins a) "access-control-allow-origin" "*" ∅)).

Definition preflight_headers (a : CORSArgs) : gmap string string :=
  set_if (allow_credentials a) "access-control-allow-credentials" "true"
    (set_if (negb (allow_all_headers a)) "access-control-allow-headers"
       (Py.join ", " (sorted_allow_headers a))
       (<["access-control-max-age" := Py.str_int (max_age a)]>
          (<["access-control-allow-methods" := Py.join ", " (methods_of a)]>
             (if preflight_explicit_allow_origin a
              then <["vary" := "Origin"]> ∅
              else <["access-control-allow-origin" := "*"]> ∅)))).

Definition is_allowed_origin (a : CORSArgs) (origin : string) : bool :=
  allow_all_origins a || inb origin (allow_origins a).

Definition add_vary_header (vary : string) (h : gmap string string) : gmap string string :=
  match h !! "vary" with
  | Some existing => <["vary" := Py.join ", " [existing; vary]]> h
  | None => <["vary" := vary]> h
  end.

Definition allow_explicit_origin (origin : string) (h : gmap string string)
    : gmap string string :=
  add_vary_header "Origin" (<["access-control-allow-origin" := origin]> h).

Definition headers_allowed (a : CORSArgs) (requested : string) : bool :=
  forallb (fun h => inb (Py.strip (Py.lower h)) (map Py.lower (sorted_allow_headers a)))
          (Py.split "," requested).

Definition preflight_response (a : CORSArgs) (request_headers : gmap string string)
    (requested_origin requested_method : string) : Response :=
  let requested_headers := request_headers !! "access-control-request-headers" in
  let origin_ok := is_allowed_origin a requested_origin in
  let h1 :=
    if origin_ok && preflight_explicit_allow_origin a
    then <["access-control-allow-origin" := requested_origin]> (preflight_headers a)
    else preflight_headers a in
  let h2 :=
    match requested_headers with
    | Some rh => if allow_all_headers a then <["access-control-allow-headers" := rh]> h1 else h1
    | None => h1
    end in
  let failures :=
    ((if origin_ok then [] else ["origin"])
     ++ (if inb requested_method (methods_of a) then [] else ["method"])
     ++ (match requested_headers with
         | Some rh => if allow_all_headers a || headers_allowed a rh then [] else ["headers"]
         | None => []
         end))%list in
  match failures with
  | [] => {| status_code := 200; content := TextContent "OK"; resp_headers := h2 |}
  | _ => {| status_code := 400;
            content := TextContent ("Disallowed CORS " +:+ Py.join ", " failures);
            resp_headers := h2 |}
  end.

(** The wrapper around [send]: the headers put on the response of the
    inner application. *)
Definition cors_send (a : CORSArgs) (request_headers : gmap string string)
    (origin : string) (r : Response) : Response :=
  let h := simple_headers a ∪ resp_headers r in
  let has_cookie := bool_decide (is_Some (request_headers !! "cookie")) in
  let h' :=
    if allow_all_origins a && has_cookie then allow_explicit_origin origin h
    else if negb (allow_all_origins a) && is_allowed_origin a origin
         then allow_explicit_origin origin h
         else h in
  {| status_code := status_code r; content := content r; resp_headers := h' |}.

Definition simple_response (a : CORSArgs) (app : App) (request : Request)
    (origin : string) : M Outcome :=
  o ← app request;
  mret (match o with
        | Return r => Return (cors_send a (headers request) origin r)
        | Raise e => Raise e
        end).

(** [CORSMiddleware.__call__]: no [Origin], a preflight, or a request
    whose response gets the headers. *)
Definition CORSMiddleware (a : CORSArgs) : Middleware := fun app request =>
  match headers request !! "origin" with
  | None => app request
  | Some origin =>
      match (if String.eqb (method request) "OPTIONS"
             then headers request !! "access-control-request-method"
             else None) with
      | Some requested_method =>
          mret (Return (preflight_response a (headers request) origin requested_method))
      | None => simple_response a app request origin
      end
  end.

(** *** Exception handling and the stack *)

(** [ExceptionMiddleware]: the handlers registered for exception
    classes other than [Exception], looked up by the class of what was
    raised. The handler is called inside the [except] block; what it
    raises goes on outwards in the place of the exception it was
    handling. *)
Definition ExceptionMiddleware
    (on_http : Request -> HTTPException -> M Response)
    (on_validation : Request -> RequestValidationError -> M Handled) : Middleware :=
  fun app request =>
    o ← app request;
    match o with
    | Return r => mret (Return r)
    | Raise e =>
        match kind e with
        | IsHTTPException he => r ← on_http request he; mret (Return r)
        | IsRequestValidationError ve =>
            h ← on_validation request ve;
            mret (match h with
                  | Responded r => Return r
                  | Failed cls msg => Raise (raised_while_handling e cls msg)
                  end)
        | IsOther => mret (Raise e)
        end
    end.

(** [ServerErrorMiddleware]: the handler registered for [Exception]
    makes a response for whatever is still raised, the response is sent,
    and the exception is raised again to the server. *)
Definition ServerErrorMiddleware (handler : Request -> Exception -> M Response)
    : Middleware :=
  fun app request =>
    o ← app request;
    match o with
    | Return r => mret (Return r)
    | Raise e => r ← handler request e; emit_event (Sent r);; mret (Raise e)
    end.

(** [add_middleware] puts the new middleware at the front of
    [user_middleware] ([insert(0, ...)]). *)
Definition add_middleware (m : Middleware) (user_middleware : list Middleware)
    : list Middleware := m :: user_middleware.

(** [build_middleware_stack]: the list is wrapped around the router
    from its last element to its first, so its first element is the
    outermost stage. *)
Definition build_middleware_stack
    (error_handler : Request -> Exception -> M Response)
    (on_http : Request -> HTTPException -> M Response)
    (on_validation : Request -> RequestValidationError -> M Handled)
    (user_middleware : list Middleware) (router : App) : App :=
  foldr (fun m app => m app) router
    ([ServerErrorMiddleware error_handler] ++ user_middleware
       ++ [ExceptionMiddleware on_http on_validation])%list.

(** The server calls the application and sends what it answers; when
    the application raises, whatever was to be sent has been sent. What
    the server itself writes to its own logger then is not an event of
    the trace, which holds the log calls of [server.py]. *)
Definition serve (app : App) (request : Request) : M unit :=
  o ← app request;
  match o with
  | Return r => emit_event (Sent r)
  | Raise _ => mret tt
  end.

End Starlette.

(** ** [server.py] *)

Module server.
Import Starlette.

(** The calls on the loguru logger made in this file. *)
Definition logger_error (msg : string) : M unit := emit_event (Logged "ERROR" msg).
Definition logger_warning (msg : string) : M unit := emit_event (Logged "WARNING" msg).

(** What opening and parsing [pyproject.toml] comes to: one of the two
    exceptions that are caught, another exception, or the document. The
    document is one of texts, integers, booleans, arrays and tables; TOML
    floats and dates are not modelled. *)
Inductive Manifest :=
| FileNotFoundError (e : string)
| TOMLDecodeError (e : string)
| OtherError (cls : string)
| Loaded (pyproject_data : list (string * Py.value)).

Inductive Result (A : Type) := Ok (a : A) | Raised (cls : string).
Arguments Ok {A} a.
Arguments Raised {A} cls.

Definition get_app_version (m : Manifest) : M (Result Py.value) :=
  match m with
  | Loaded pyproject_data =>
      match default (Py.VDict []) (Py.dict_lookup "project" pyproject_data) with
      | Py.VDict project =>
          mret (Ok (default (Py.VStr "0.0.0") (Py.dict_lookup "version" project)))
      | _ => mret (Raised "AttributeError")
      end
  | FileNotFoundError e | TOMLDecodeError e =>
      logger_warning ("Could not read version from pyproject.toml: " +:+ e);;
      mret (Ok (Py.VStr "0.0.0"))
  | OtherError cls => mret (Raised cls)
  end.

Record FastAPI := { title : string; description : string; version : Py.value }.

(** [app = FastAPI(...)] for a given [APP_VERSION]. *)
Definition app (APP_VERSION : Py.value) : FastAPI :=
  {| title := "Tarot API";
     description := "Backend API service for tarot.vn";
     version := APP_VERSION |}.

Definition http_exception_handler (request : Request) (exc : HTTPException)
    : M Response :=
  logger_error ("HTTP " +:+ Py.str_int (exc_status_code exc) +:+ " error: "
                  +:+ Py.str (detail exc));;
  logger_error ("Request path: " +:+ path request);;
  logger_error ("Request method: " +:+ method request);;
  mret (JSONResponse (exc_status_code exc) (Py.VDict [("detail", detail exc)])).

Definition validation_exception_handler (request : Request)
    (exc : RequestValidationError) : M Handled :=
  logger_error ("Validation error on " +:+ path request);;
  logger_error ("Validation errors: " +:+ repr_errors (errors exc));;
  match body request with
  | Consumed => mret (Failed "RuntimeError" "Stream consumed")
  | Received b =>
      logger_error ("Request body: " +:+ Py.repr_bytes b);;
      match encode_errors (errors exc) with
      | inl cls =>
          mret (Failed "TypeError"
                  ("Object of type " +:+ cls +:+ " is not JSON serializable"))
      | inr records =>
          mret (Responded (JSONResponse 422 (Py.VDict [("detail", Py.VList records)])))
      end
  end.

Definition general_exception_handler (request : Request) (exc : Exception)
    : M Response :=
  let tb_str := String.concat "" (format_exception exc) in
  logger_error ("Unhandled exception in " +:+ method request +:+ " " +:+ path request);;
  logger_error ("Exception type: " +:+ type_name exc);;
  logger_error ("Exception message: " +:+ exc_str exc);;
  logger_error ("Full traceback:" +:+ Py.nl +:+ tb_str);;
  mret (JSONResponse 500
          (Py.VDict [("detail", Py.VStr "Internal server error");
                     ("error_type", Py.VStr (type_name exc));
                     ("error_message", Py.VStr (exc_str exc))])).

(** [HTTP2PRIMiddleware.dispatch] *)
Definition dispatch (request : Request) (call_next : App) : M Outcome :=
  if String.eqb (method request) "PRI" && String.eqb (path request) "*"
  then mret (Return {| status_code := 400;
                       content := RawContent "Bad Request";
                       resp_headers := ∅ |})
  else call_next request.

Definition HTTP2PRIMiddleware : Middleware := fun app request => dispatch request app.

Definition cors_args (ALLOWED_ORIGINS : list string) : CORSArgs :=
  {| allow_origins := ALLOWED_ORIGINS;
     allow_credentials := true;
     allow_methods := ["GET"; "POST"; "PUT"; "PATCH"; "DELETE"; "OPTIONS"];
     allow_headers := ["Authorization"; "Content-Type"; "Accept"; "Origin";
                       "User-Agent"; "DNT"; "Cache-Control"; "X-Requested-With"];
     expose_headers := ["Content-Length"; "Content-Range"];
     max_age := 600 |}.

(** The two [app.add_middleware] calls, in the order of the file. *)
Definition user_middleware (ALLOWED_ORIGINS : list string) : list Middleware :=
  add_middleware (CORSMiddleware (cors_args ALLOWED_ORIGINS))
    (add_middleware HTTP2PRIMiddleware []).

(** [root]: the body of [GET /]. *)
Definition root (a : FastAPI) : Py.value :=
  Py.VDict [("message", Py.VStr (description a)); ("version", version a)].

(** The router: [GET /] is the one route this file declares; [routes]
    stands for the route handlers declared elsewhere. Routes are matched
    on the path of the request target. *)
Definition router (a : FastAPI) (routes : App) : App := fun request =>
  if String.eqb (method request) "GET" && String.eqb (target request) "/"
  then mret (Return (JSONResponse 200 (root a)))
  else routes request.

(** The application as the server calls it. *)
Definition asgi (ALLOWED_ORIGINS : list string) (a : FastAPI) (routes : App) : App :=
  build_middleware_stack general_exception_handler http_exception_handler
    validation_exception_handler (user_middleware ALLOWED_ORIGINS) (router a routes).

(** Start-up: [APP_VERSION = get_app_version()], then
    [app = FastAPI(...)], whose set-up asserts that the title and the
    version are true values. When start-up raises there is no
    application. *)
Definition startup (m : Manifest) : M (Result FastAPI) :=
  v ← get_app_version m;
  mret (match v with
        | Ok APP_VERSION =>
            if Py.truthy (title (app APP_VERSION)) && Py.truth APP_VERSION
            then Ok (app APP_VERSION)
            else Raised "AssertionError"
        | Raised cls => Raised cls
        end).

(** *** Start-up, shutdown and the main block *)

Definition logger_info (msg : string) : M unit := emit_event (Logged "INFO" msg).

(** The two signals the main block registers [signal_handler] for. *)
Inductive Signal := SIGINT | SIGTERM.

(** [signal.Signals(signum).name] *)
Definition signal_name (signum : Signal) : string :=
  match signum with
  | SIGINT => "SIGINT"
  | SIGTERM => "SIGTERM"
  end.

(** What can end a block of the main program early: the classes the
    [except] clauses tell apart. [AnException] is any subclass of
    [Exception], with its [str]. *)
Inductive BaseExc :=
| KeyboardInterrupt
| SystemExit (code : Z)
| AnException (cls : string) (msg : string)
| OtherBaseException (cls : string).

(** [signal_handler]: one log line, then [sys.exit(0)]. *)
Definition signal_handler (signum : Signal) : M (option BaseExc) :=
  logger_info ("Received " +:+ signal_name signum +:+ ", shutting down gracefully...");;
  mret (Some (SystemExit 0)).

(** The block under [if __name__ == "__main__"]. [uvicorn_run] stands
    for the call [uvicorn.run(app, ...)]; it is given the handler that the
    two [signal.signal] calls have registered before it, and it returns
    what ended it, if anything. The result is what leaves the whole
    block. *)
Definition main (uvicorn_run : (Signal -> M (option BaseExc)) -> M (option BaseExc))
    : M (option BaseExc) :=
  logger_info "Starting server on host=0.0.0.0, port=8080";;
  r ← uvicorn_run signal_handler;
  r' ← match r with
       | None => mret None
       | Some KeyboardInterrupt =>
           logger_info "Server shutdown requested by user";; mret None
       | Some (AnException _ e) =>
           logger_error ("Server error: " +:+ e);; mret None
       | Some other => mret (Some other)
       end;
  logger_info "Server stopped";;
  mret r'.

End server.

(** ** Notions used to state the properties *)

Module Spec.
Import Starlette.




(** The test of the admission filter: the requests it answers itself. *)
Definition is_probe (request : Request) : bool :=
  String.eqb (method request) "PRI" && String.eqb (path request) "*".

(** A CORS preflight: answered by the CORS stage itself. *)
Definition is_preflight (request : Request) : bool :=
  match headers request !! "origin" with
  | Some _ =>
      String.eqb (method request) "OPTIONS"
      && bool_decide (is_Some (headers request !! "access-control-request-method"))
  | None => false
  end.

Definition allow_origin_header (r : Response) : option string :=
  resp_headers r !! "access-control-allow-origin".

(** The response of the admission filter as it leaves the filter. *)
Definition bad_request : Response :=
  {| status_code := 400; content := RawContent "Bad Request"; resp_headers := ∅ |}.

(** The responses sent, in their order. *)
Fixpoint sent (tr : list Event) : list Response :=
  match tr with
  | [] => []
  | Sent r :: rest => r :: sent rest
  | Logged _ _ :: rest => sent rest
  end.




(** The stages inside the CORS stage, for a given router. *)
Definition inside_cors (router : App) : App :=
  server.HTTP2PRIMiddleware
    (ExceptionMiddleware server.http_exception_handler
       server.validation_exception_handler router).

(** The line the template of the specification describes. *)
Definition expected_line (r : Loguru.Record_) (logger_name : string) : string :=
  Loguru.time r "YYYY-MM-DD HH:mm:ss.SSS" +:+ " | "
    +:+ Py.ljust 8 (Loguru.level_name (Loguru.rlevel r)) +:+ " | "
    +:+ logger_name +:+ ":" +:+ Loguru.function r +:+ ":"
    +:+ Py.str_int (Loguru.line r) +:+ " - " +:+ Loguru.message r +:+ Py.nl.

(** Characters that the sink reads as syntax when they stand in a
    template. *)
Definition plain_char (c : ascii) : bool :=
  negb (Ascii.eqb c "{" || Ascii.eqb c "}" || Ascii.eqb c "<").

Fixpoint plain (s : string) : bool :=
  match s with
  | "" => true
  | String c s' => plain_char c && plain s'
  end.

(** No brace: text that can stand inside a replacement field. *)
Fixpoint no_brace (s : string) : bool :=
  match s with
  | "" => true
  | String c s' => negb (Ascii.eqb c "{" || Ascii.eqb c "}") && no_brace s'
  end.

(** The name [format_record] shows for a record. *)
Definition shown_name (r : Loguru.Record_) : string :=
  default (Loguru.name r) (Loguru.extra r !! "name").

(** The levels that the documentation of [setup_logging] lists. *)
Definition documented_levels : list string := ["DEBUG"; "INFO"; "WARNING"; "ERROR"].

(** The state of a logger after the second loop of [setup_logging]. *)
Definition silenced : Logging.Logger :=
  {| Logging.handlers := [];
     Logging.level := Logging.WARNING;
     Logging.propagate := false |}.



(** The text that stands for the host in [request.url]: the [Host]
    header or, without one, the server address. *)
Definition authority (request : Request) : option string :=
  match headers request !! "host" with
  | Some host_header => Some host_header
  | None =>
      match server request with
      | Some (host, port) =>
          Some (if (port =? default_port (scheme request))%Z then host
                else host +:+ ":" +:+ Py.str_int port)
      | None => None
      end
  end.

Fixpoint last_char (s : string) : option ascii :=
  match s with
  | "" => None
  | String c "" => Some c
  | String _ s' => last_char s'
  end.

(** *** Notions for the configuration and the logging set-up *)

Fixpoint all_chars (p : ascii -> bool) (s : string) : bool :=
  match s with
  | "" => true
  | String c s' => p c && all_chars p s'
  end.

Definition first_char (s : string) : option ascii :=
  match s with
  | "" => None
  | String c _ => Some c
  end.

Definition not_space (o : option ascii) : bool :=
  match o with
  | Some c => negb (Py.is_space c)
  | None => false
  end.

(** An origin written the way it is kept: not empty, no comma, no
    whitespace at either end, no slash at the end. *)
Definition clean_origin (o : string) : bool :=
  negb (Py.mem "," o) && not_space (first_char o) && not_space (last_char o)
  && negb (bool_decide (last_char o = Some "/"%char)).

(** Nothing but whitespace and commas. *)
Definition blank (s : string) : bool :=
  all_chars (fun c => Py.is_space c || Ascii.eqb c ",") s.

(** The level names with which [setup_logging] returns. *)
Definition accepted_levels : list string :=
  ["DEBUG"; "INFO"; "WARNING"; "ERROR"; "CRITICAL"].

(** A logger after the first loop of [setup_logging] at level number [v]. *)
Definition intercepted (v : Z) : Logging.Logger :=
  {| Logging.handlers := [Logging.InterceptHandler];
     Logging.level := v;
     Logging.propagate := false |}.

(** The standard levels of [logging], names and numbers. *)
Definition standard_levels : list (string * Z) :=
  [("DEBUG", 10); ("INFO", 20); ("WARNING", 30); ("ERROR", 40); ("CRITICAL", 50)].

Definition is_dict (v : Py.value) : bool :=
  match v with
  | Py.VDict _ => true
  | _ => false
  end.

(** An exception that one of the [except] clauses of the main block
    names. *)
Definition is_caught (r : option server.BaseExc) : bool :=
  match r with
  | Some server.KeyboardInterrupt | Some (server.AnException _ _) => true
  | _ => false
  end.

(** What the CORS stage checks on a preflight besides the origin. *)
Definition preflight_request_allowed (args : CORSArgs) (request_headers : gmap string string)
    (requested_method : string) : bool :=
  inb requested_method (allow_methods args)
  && match request_headers !! "access-control-request-headers" with
     | Some rh => headers_allowed args rh
     | None => true
     end.

End Spec.

(** ** Sample inputs *)

Module Sample.
Import Starlette.

Definition clock : string -> string := fun _ => "2024-05-01 12:00:00.000".

(** The record of the specification's example: level INFO, logger name
    [test], function [f], line 10, message [hello]. *)
Definition record_named (bound : gmap string string) : Loguru.Record_ :=
  {| Loguru.time := clock;
     Loguru.rlevel := {| Loguru.level_name := "INFO"; Loguru.level_no := 20 |};
     Loguru.name := "test";
     Loguru.function := "f";
     Loguru.line := 10;
     Loguru.message := "hello";
     Loguru.extra := bound;
     Loguru.exception := None |}.

Definition info_record : Loguru.Record_ := record_named ∅.

(** The same call made on a logger bound to the name [{message}]. *)
Definition brace_record : Loguru.Record_ := record_named (<["name" := "{message}"]> ∅).

(** And on a logger bound to the name [a{b}]. *)
Definition key_record : Loguru.Record_ := record_named (<["name" := "a{b}"]> ∅).

Definition stdout_handler : Loguru.Handler :=
  {| Loguru.levelno := 20; Loguru.formatter := utils_logger.format_record |}.

(** [logging.getLogger("uvicorn.error").info("Started server process")]
    made in a function [serve] on line 84. *)
Definition uvicorn_record : Logging.LogRecord :=
  {| Logging.name := "uvicorn.error";
     Logging.levelname := "INFO";
     Logging.levelno := 20;
     Logging.funcName := "serve";
     Logging.lineno := 84;
     Logging.getMessage := "Started server process";
     Logging.exc_info := None |}.

(** A record whose level name loguru does not know. *)
Definition audit_record : Logging.LogRecord :=
  {| Logging.name := "audit";
     Logging.levelname := "AUDIT";
     Logging.levelno := 35;
     Logging.funcName := "check";
     Logging.lineno := 7;
     Logging.getMessage := "checked";
     Logging.exc_info := None |}.

Definition environ : gmap string string :=
  <["ALLOWED_ORIGINS" := "https://xemtarrot.vn/, http://localhost:4321"]> ∅.


Definition application : server.FastAPI := server.app (Py.VStr "1.2.3").

(** A request for the target [p] as the server on port 8080 hands it
    over, with a JSON body that has been read. *)
Definition request (m p : string) (h : gmap string string) : Request :=
  {| method := m;
     target := p;
     query_string := "";
     scheme := Http;
     server := Some ("0.0.0.0", 8080);
     headers := h;
     body := Received "[3, 7, 21]" |}.

Definition from_site : gmap string string := <["origin" := "https://xemtarrot.vn"]> ∅.


(** The connection preface of HTTP/2, [PRI * HTTP/2.0], which comes
    without headers. *)
Definition probe : Request := request "PRI" "*" ∅.

(** The same method and target in a scope put together by hand, with
    no server address and no [Host] header, sent with an allowed
    [Origin]. *)
Definition bare_probe : Request :=
  {| method := "PRI";
     target := "*";
     query_string := "";
     scheme := Http;
     server := None;
     headers := from_site;
     body := Received "" |}.

(** Route handlers that raise a given exception, and one that answers. *)
Definition raising (e : Exception) : App := fun _ => mret (Raise e).
Definition answering : App := fun _ => mret (Return (JSONResponse 200 (Py.VStr "ok"))).

(** The traceback of an exception raised in a handler of [server.py]
    while the exception with the traceback [tb] is being handled. *)
Definition chained (tb : list string) (cls msg : string) : list string :=
  (tb ++ [Py.nl +:+ "During handling of the above exception, another exception occurred:"
            +:+ Py.nl +:+ Py.nl;
          "Traceback (most recent call last):" +:+ Py.nl;
          "  File 'server.py', line 87, in validation_exception_handler" +:+ Py.nl;
          cls +:+ ": " +:+ msg +:+ Py.nl])%list.


Definition not_found : HTTPException :=
  {| exc_status_code := 404; detail := Py.VStr "Not Found" |}.

(** What the router raises for a path that no route matches. *)
Definition not_found_error : Exception :=
  {| kind := IsHTTPException not_found;
     type_name := "HTTPException";
     exc_str := "404: Not Found";
     format_exception := [];
     while_handling := chained [] |}.

Definition missing_field : RequestValidationError :=
  {| errors :=
       [Encodable
          (Py.VDict [("type", Py.VStr "missing");
                     ("loc", Py.VTuple [Py.VStr "body"; Py.VStr "spread"]);
                     ("msg", Py.VStr "Field required")])] |}.

Definition missing_field_error : Exception :=
  {| kind := IsRequestValidationError missing_field;
     type_name := "RequestValidationError";
     exc_str := "";
     format_exception := [];
     while_handling := chained [] |}.

(** The record of a field whose validator function raised
    [ValueError("unknown spread")]: the validator keeps the exception
    under [ctx]. *)
Definition rejected_spread : RequestValidationError :=
  {| errors :=
       [Unencodable
          "{'type': 'value_error', 'loc': ('body', 'spread'), 'msg': 'Value error, unknown spread', 'input': 'star', 'ctx': {'error': ValueError('unknown spread')}}"
          "ValueError"] |}.

Definition rejected_spread_error : Exception :=
  {| kind := IsRequestValidationError rejected_spread;
     type_name := "RequestValidationError";
     exc_str := "";
     format_exception := [];
     while_handling := chained [] |}.

(** A request whose body was sent as a form: parsing the form read the
    stream without keeping it. *)
Definition form_request : Request :=
  {| method := "POST";
     target := "/readings";
     query_string := "";
     scheme := Http;
     server := Some ("0.0.0.0", 8080);
     headers := from_site;
     body := Consumed |}.

Definition registry : utils_logger.State :=
  {| utils_logger.sinks := []; utils_logger.loggers := ∅ |}.

Definition manifest : server.Manifest :=
  server.Loaded [("project", Py.VDict [("name", Py.VStr "tarot"); ("version", Py.VStr "1.2.3")])].

Definition manifest_without_version : list (string * Py.value) :=
  [("project", Py.VDict [("name", Py.VStr "tarot")])].

(** Origins as a deployment would list them. *)
Definition site_origins : list string :=
  ["https://xemtarrot.vn"; "http://localhost:4321"; "http://localhost:3000"].

(** A preflight sent from the configured site for a [POST] with a JSON
    body. *)
Definition preflight_from_site : gmap string string :=
  <["access-control-request-headers" := "content-type, authorization"]>
    (<["access-control-request-method" := "POST"]> from_site).

(** A request from a client that is not a browser: no headers. *)
Definition no_headers : gmap string string := ∅.

(** An environment in which the list of origins is set but blank. *)
Definition blank_environ : gmap string string := <["ALLOWED_ORIGINS" := " , ,"]> ∅.

(** Route handlers that answer with a status of their own. *)
Definition created : App := fun _ => mret (Return (JSONResponse 201 (Py.VStr "created"))).

(** A server run that is ended by a failure of the server itself. *)
Definition failing_run : (server.Signal -> M (option server.BaseExc)) -> M (option server.BaseExc) :=
  fun _ => mret (Some (server.AnException "OSError" "[Errno 98] Address already in use")).

(** A record at level WARNING from a logger of the database layer. *)
Definition warning_record : Logging.LogRecord :=
  {| Logging.name := "sqlalchemy.engine";
     Logging.levelname := "WARNING";
     Logging.levelno := 30;
     Logging.funcName := "execute";
     Logging.lineno := 120;
     Logging.getMessage := "slow query";
     Logging.exc_info := None |}.

(** A record with a level name loguru does not know and a negative
    number. *)
Definition negative_record : Logging.LogRecord :=
  {| Logging.name := "audit";
     Logging.levelname := "AUDIT";
     Logging.levelno := -5;
     Logging.funcName := "check";
     Logging.lineno := 7;
     Logging.getMessage := "checked";
     Logging.exc_info := None |}.

(** A registry in which one logger outside the configured names has a
    handler of its own. *)
Definition busy_registry : utils_logger.State :=
  {| utils_logger.sinks := [stdout_handler; stdout_handler];
     utils_logger.loggers :=
       <["sqlalchemy.engine" := {| Logging.handlers := [Logging.StreamHandler "stderr"];
                                   Logging.level := 10;
                                   Logging.propagate := true |}]> ∅ |}.

(** A manifest whose project table gives the empty text as version. *)
Definition manifest_with_empty_version : list (string * Py.value) :=
  [("project", Py.VDict [("name", Py.VStr "tarot"); ("version", Py.VStr "")])].

(** A manifest whose [project] key is not a table. *)
Definition manifest_with_text_project : list (string * Py.value) :=
  [("project", Py.VStr "tarot")].

End Sample.

(** * Properties *)

Import Starlette server Spec.

(** ** Text *)

Lemma str_app_cons c (a b : string) : String c a +:+ b = String c (a +:+ b).
Proof. reflexivity. Qed.

Lemma str_app_assoc (a b c : string) : (a +:+ b) +:+ c = a +:+ b +:+ c.
Proof.
  induction a as [|x a IH]; [reflexivity|].
  rewrite !str_app_cons. now rewrite IH.
Qed.

Lemma str_app_nil_r (a : string) : a +:+ "" = a.
Proof.
  induction a as [|x a IH]; [reflexivity|].
  rewrite str_app_cons. now rewrite IH.
Qed.





(** ** The stages of the stack, one at a time *)

Lemma bind_run {A B} (m : M A) (f : A -> M B) tr :
  (m ≫= f) tr = f (fst (m tr)) (snd (m tr)).
Proof. reflexivity. Qed.

Lemma serve_sends (app : App) request tr r tr' :
  app request tr = (Return r, tr') ->
  serve app request tr = (tt, (tr' ++ [Sent r])%list).
Proof. intros H. unfold serve. rewrite bind_run, H. reflexivity. Qed.

Lemma serve_raised (app : App) request tr e tr' :
  app request tr = (Raise e, tr') ->
  serve app request tr = (tt, tr').
Proof. intros H. unfold serve. rewrite bind_run, H. reflexivity. Qed.

Section Stack.

Variable origins : list string.
Variable a : FastAPI.
Variable routes : App.

(** The order of the stages that the two [add_middleware] calls give:
    the CORS stage, added last, is outside the admission filter. *)
Lemma asgi_stack :
  asgi origins a routes
  = ServerErrorMiddleware general_exception_handler
      (CORSMiddleware (cors_args origins) (inside_cors (router a routes))).
Proof. reflexivity. Qed.

Lemma asgi_returned request tr r tr' :
  CORSMiddleware (cors_args origins) (inside_cors (router a routes)) request tr
  = (Return r, tr') ->
  asgi origins a routes request tr = (Return r, tr').
Proof.
  intros H. rewrite asgi_stack. unfold ServerErrorMiddleware.
  rewrite bind_run, H. reflexivity.
Qed.

Lemma asgi_raised request tr e tr' :
  CORSMiddleware (cors_args origins) (inside_cors (router a routes)) request tr
  = (Raise e, tr') ->
  asgi origins a routes request tr
  = (Raise e,
     (snd (general_exception_handler request e tr')
        ++ [Sent (fst (general_exception_handler request e tr'))])%list).
Proof.
  intros H. rewrite asgi_stack. unfold ServerErrorMiddleware.
  rewrite bind_run, H. reflexivity.
Qed.

End Stack.

Lemma inside_cors_pass rt request tr :
  is_probe request = false ->
  inside_cors rt request tr
  = ExceptionMiddleware http_exception_handler validation_exception_handler rt request tr.
Proof.
  intros H. unfold inside_cors, HTTP2PRIMiddleware, dispatch.
  unfold is_probe in H. rewrite H. reflexivity.
Qed.







Lemma cors_not_preflight args app request tr :
  is_preflight request = false ->
  CORSMiddleware args app request tr
  = match headers request !! "origin" with
    | None => app request tr
    | Some origin => simple_response args app request origin tr
    end.
Proof.
  unfold is_preflight, CORSMiddleware. intros H.
  destruct (headers request !! "origin") as [o|]; [|reflexivity].
  destruct (String.eqb (method request) "OPTIONS"); [|reflexivity].
  simpl in H. destruct (headers request !! "access-control-request-method"); [|reflexivity].
  rewrite bool_decide_eq_false in H. exfalso. apply H. eauto.
Qed.



(** On its way out through the CORS stage a response keeps its status
    and its body. *)
Lemma cors_return args app request tr r tr1 :
  is_preflight request = false ->
  app request tr = (Return r, tr1) ->
  exists r',
    CORSMiddleware args app request tr = (Return r', tr1)
    /\ status_code r' = status_code r
    /\ content r' = content r
    /\ r' = match headers request !! "origin" with
            | None => r
            | Some origin => cors_send args (headers request) origin r
            end.
Proof.
  intros Hp H. rewrite cors_not_preflight by assumption.
  destruct (headers request !! "origin") as [o|].
  - eexists. unfold simple_response. rewrite bind_run, H. simpl.
    repeat split; reflexivity.
  - exists r. repeat split. assumption.
Qed.


(** ** The error translation layer *)



(** C3, at the inputs where the handler fails. A request to
    [POST /readings] fails validation in a validator function that raised
    [ValueError]: the record keeps the exception, [JSONResponse] cannot
    encode it, the handler ends in [TypeError] after its three log
    entries, and the client is sent the response of the outermost stage,
    status 500, not 422. A request whose body was a form fails
    validation: reading the body again raises [RuntimeError], the raw
    body is not logged, and the client is sent status 500 as well. *)
Theorem validation_handler_fails :
  serve (asgi (config_app.ALLOWED_ORIGINS Sample.environ) Sample.application
           (Sample.raising Sample.rejected_spread_error))
        (Sample.request "POST" "/readings" Sample.from_site) []
  = (tt, [Logged "ERROR" "Validation error on /readings";
          Logged "ERROR"
            "Validation errors: [{'type': 'value_error', 'loc': ('body', 'spread'), 'msg': 'Value error, unknown spread', 'input': 'star', 'ctx': {'error': ValueError('unknown spread')}}]";
          Logged "ERROR" "Request body: b'[3, 7, 21]'";
          Logged "ERROR" "Unhandled exception in POST /readings";
          Logged "ERROR" "Exception type: TypeError";
          Logged "ERROR"
            "Exception message: Object of type ValueError is not JSON serializable";
          Logged "ERROR"
            ("Full traceback:" +:+ Py.nl
               +:+ String.concat ""
                     (Sample.chained [] "TypeError"
                        "Object of type ValueError is not JSON serializable"));
          Sent (JSONResponse 500
                  (Py.VDict [("detail", Py.VStr "Internal server error");
                             ("error_type", Py.VStr "TypeError");
                             ("error_message",
                              Py.VStr "Object of type ValueError is not JSON serializable")]))])
  /\ serve (asgi (config_app.ALLOWED_ORIGINS Sample.environ) Sample.application
              (Sample.raising Sample.missing_field_error))
           Sample.form_request []
     = (tt, [Logged "ERROR" "Validation error on /readings";
             Logged "ERROR"
               "Validation errors: [{'type': 'missing', 'loc': ('body', 'spread'), 'msg': 'Field required'}]";
             Logged "ERROR" "Unhandled exception in POST /readings";
             Logged "ERROR" "Exception type: RuntimeError";
             Logged "ERROR" "Exception message: Stream consumed";
             Logged "ERROR"
               ("Full traceback:" +:+ Py.nl
                  +:+ String.concat "" (Sample.chained [] "RuntimeError" "Stream consumed"));
             Sent (JSONResponse 500
                     (Py.VDict [("detail", Py.VStr "Internal server error");
                                ("error_type", Py.VStr "RuntimeError");
                                ("error_message", Py.VStr "Stream consumed")]))]).
Proof. split; vm_compute; reflexivity. Qed.

(** ** The admission filter *)

(** With a [Host] header or a server address, the path of
    [request.url] is empty or begins with a slash. *)
Lemma before_query_or_fragment_slash s :
  first_char s = Some "/"%char ->
  first_char (Urllib.before_query_or_fragment s) = Some "/"%char.
Proof. destruct s as [|c s]; [discriminate|]. intros [= ->]. reflexivity. Qed.

Lemma after_netloc_path s :
  Urllib.before_query_or_fragment (Urllib.after_netloc s) = ""
  \/ first_char (Urllib.before_query_or_fragment (Urllib.after_netloc s)) = Some "/"%char.
Proof.
  induction s as [|c s IH]; [left; reflexivity|].
  cbn [Urllib.after_netloc].
  destruct (Ascii.eqb_spec c "/") as [->|H1]; [right; reflexivity|].
  destruct (Ascii.eqb_spec c "?") as [->|H2]; [left; reflexivity|].
  destruct (Ascii.eqb_spec c "#") as [->|H3]; [left; reflexivity|].
  replace (Py.mem c "/?#") with false; [exact IH|].
  cbn [Py.mem]. symmetry.
  destruct (Ascii.eqb_spec c "/"); [contradiction|].
  destruct (Ascii.eqb_spec c "?"); [contradiction|].
  destruct (Ascii.eqb_spec c "#"); [contradiction|]. reflexivity.
Qed.

Lemma remove_chars_app p a b :
  Urllib.remove_chars p (a +:+ b) = Urllib.remove_chars p a +:+ Urllib.remove_chars p b.
Proof.
  induction a as [|c a IH]; [reflexivity|].
  rewrite str_app_cons. cbn [Urllib.remove_chars]. rewrite IH.
  destruct (p c); reflexivity.
Qed.

Lemma urlsplit_path_with_authority sch rest :
  Urllib.urlsplit_path (scheme_name sch +:+ "://" +:+ rest)
  = Urllib.before_query_or_fragment
      (Urllib.after_netloc (Urllib.remove_chars Urllib.unsafe_char rest)).
Proof.
  unfold Urllib.urlsplit_path.
  destruct sch; cbn [scheme_name];
    rewrite !str_app_cons; cbn [Py.lstrip_chars];
    change ("" +:+ "://" +:+ rest) with (String ":" (String "/" (String "/" rest)));
    reflexivity.
Qed.

Lemma path_with_authority request host :
  authority request = Some host ->
  path request = "" \/ first_char (path request) = Some "/"%char.
Proof.
  unfold authority, path, url. intros H.
  assert (Hgen : forall sch rest,
             Urllib.urlsplit_path (scheme_name sch +:+ "://" +:+ rest) = ""
             \/ first_char (Urllib.urlsplit_path (scheme_name sch +:+ "://" +:+ rest))
                = Some "/"%char).
  { intros sch rest. rewrite urlsplit_path_with_authority. apply after_netloc_path. }
  destruct (headers request !! "host") as [h|].
  - destruct (Py.truthy (query_string request)).
    + rewrite !str_app_assoc. apply Hgen.
    + apply Hgen.
  - destruct (server request) as [[h port]|]; [|discriminate].
    destruct (port =? default_port (scheme request))%Z;
      destruct (Py.truthy (query_string request));
      rewrite ?str_app_assoc; apply Hgen.
Qed.

(** C4, at the input where the filter misses. The connection preface
    [PRI * HTTP/2.0] arrives at the server on port 8080: [request.url] is
    [http://0.0.0.0:8080*], whose path is empty, so the test
    [request.url.path == "*"] fails and the filter hands the request on;
    the router, which knows no such path, raises 404, and the client is
    sent status 404 with a JSON body after three error entries, not
    status 400 with the body [Bad Request]. In a scope put together
    without server address and without [Host] header the filter does
    answer, and its response leaves through the CORS stage, which was
    added after the filter and therefore stands outside it: the response
    carries an [Access-Control-Allow-Origin] header. *)
Theorem probe_not_recognised :
  url Sample.probe = "http://0.0.0.0:8080*"
  /\ path Sample.probe = ""
  /\ (forall call_next, dispatch Sample.probe call_next = call_next Sample.probe)
  /\ serve (asgi (config_app.ALLOWED_ORIGINS Sample.environ) Sample.application
              (Sample.raising Sample.not_found_error))
           Sample.probe []
     = (tt, [Logged "ERROR" "HTTP 404 error: Not Found";
             Logged "ERROR" "Request path: ";
             Logged "ERROR" "Request method: PRI";
             Sent (JSONResponse 404 (Py.VDict [("detail", Py.VStr "Not Found")]))])
  /\ path Sample.bare_probe = "*"
  /\ dispatch Sample.bare_probe Sample.answering [] = (Return bad_request, [])
  /\ allow_origin_header
       <$> sent (snd (serve (asgi (config_app.ALLOWED_ORIGINS Sample.environ)
                               Sample.application Sample.answering)
                        Sample.bare_probe []))
     = [Some "https://xemtarrot.vn"]
  /\ allow_origin_header bad_request = None.
Proof. repeat split; vm_compute; reflexivity. Qed.

(** ** The version and the root endpoint *)

(** C7, at the inputs where start-up stops. [get_app_version] catches
    [FileNotFoundError] and [TOMLDecodeError] only: whatever else reading
    the manifest raises, such as the [UnicodeDecodeError] of a manifest
    that is not UTF-8 text, leaves start-up without a warning and without
    an application. A manifest whose version is the empty text is read
    without complaint, and start-up then stops in the assertion of
    [FastAPI]. *)
Theorem unreadable_manifest_is_fatal :
  (forall cls tr, startup (OtherError cls) tr = (Raised cls, tr))
  /\ startup (OtherError "UnicodeDecodeError") [] = (Raised "UnicodeDecodeError", [])
  /\ get_app_version (Loaded Sample.manifest_with_empty_version) []
     = (Ok (Py.VStr ""), [])
  /\ startup (Loaded Sample.manifest_with_empty_version) [] = (Raised "AssertionError", []).
Proof. repeat split. Qed.

(** C10. When the manifest was read and parsed but has no [project] key,
    or its project table has no [version] key, [get_app_version] returns
    ["0.0.0"] and logs nothing; nothing is logged either for any other
    manifest that was read and parsed, or when reading it raises an
    exception that is not caught. *)
Theorem version_placeholder_without_warning pyproject_data tr :
  (Py.dict_lookup "project" pyproject_data = None
   \/ exists project,
        Py.dict_lookup "project" pyproject_data = Some (Py.VDict project)
        /\ Py.dict_lookup "version" project = None) ->
  get_app_version (Loaded pyproject_data) tr = (Ok (Py.VStr "0.0.0"), tr)
  /\ (forall data, snd (get_app_version (Loaded data) tr) = tr)
  /\ (forall cls, snd (get_app_version (OtherError cls) tr) = tr).
Proof.
  intros H. split; [|split].
  - unfold get_app_version. destruct H as [H | (project & Hp & Hv)].
    + rewrite H. reflexivity.
    + rewrite Hp. simpl. rewrite Hv. reflexivity.
  - intros data. unfold get_app_version.
    destruct (default (Py.VDict []) (Py.dict_lookup "project" data)); reflexivity.
  - reflexivity.
Qed.

(** ** The CORS stage *)




Section Headers.

Variable origins : list string.
Hypothesis no_wildcard : inb "*" origins = false.






End Headers.

(** The one response that the server sends for a request, and the
    events before it. *)
Lemma serve_asgi_cases origins a routes request tr :
  (exists r tr1,
      CORSMiddleware (cors_args origins) (inside_cors (router a routes)) request tr
      = (Return r, tr1)
      /\ serve (asgi origins a routes) request tr = (tt, (tr1 ++ [Sent r])%list))
  \/ (exists e tr1,
         CORSMiddleware (cors_args origins) (inside_cors (router a routes)) request tr
         = (Raise e, tr1)
         /\ serve (asgi origins a routes) request tr
            = (tt, (snd (general_exception_handler request e tr1)
                      ++ [Sent (fst (general_exception_handler request e tr1))])%list)).
Proof.
  destruct (CORSMiddleware (cors_args origins) (inside_cors (router a routes)) request tr)
    as [[r|e] tr1] eqn:H.
  - left. exists r, tr1. split; [reflexivity|].
    apply serve_sends. now apply asgi_returned.
  - right. exists e, tr1. split; [reflexivity|].
    eapply serve_raised. now apply asgi_raised.
Qed.


(** ** Logging *)

Lemma silence_keeps (names : list string) (reg : gmap string Logging.Logger) n :
  reg !! n = Some silenced -> foldl utils_logger.silence reg names !! n = Some silenced.
Proof.
  revert reg. induction names as [|m names IH]; intros reg H; simpl; [assumption|].
  apply IH. unfold utils_logger.silence.
  destruct (decide (m = n)) as [->|Hne].
  - apply lookup_insert_eq.
  - rewrite lookup_insert_ne by assumption. assumption.
Qed.

Lemma silence_all (names : list string) (reg : gmap string Logging.Logger) n :
  In n names -> foldl utils_logger.silence reg names !! n = Some silenced.
Proof.
  revert reg. induction names as [|m names IH]; intros reg H; simpl; [contradiction|].
  destruct H as [->|H].
  - apply silence_keeps. unfold utils_logger.silence. apply lookup_insert_eq.
  - apply IH. assumption.
Qed.

Lemma configure_ok v names (reg : gmap string Logging.Logger) :
  exists reg', utils_logger.configure (Some v) names reg = (None, reg').
Proof.
  revert reg. induction names as [|m names IH]; intros reg; simpl; eauto.
Qed.

(** [setup_logging] returns, with the noisy loggers silenced, for every
    level name that both loguru and [logging] know. *)
Lemma setup_logging_silences level st :
  is_Some (Loguru.level level) ->
  is_Some (Logging.getattr level) ->
  exists st',
    utils_logger.setup_logging level st = (None, st')
    /\ forall n, In n utils_logger.noisy_logger_names ->
         utils_logger.loggers st' !! n = Some silenced.
Proof.
  intros [l Hl] [v Hv]. unfold utils_logger.setup_logging. rewrite Hl, Hv.
  match goal with |- context [utils_logger.configure (Some v) ?ns ?r] =>
    destruct (configure_ok v ns r) as (reg' & ->) end.
  eexists. split; [reflexivity|].
  intros n Hn. apply (silence_all utils_logger.noisy_logger_names reg' n Hn).
Qed.

Lemma documented_levels_known level :
  In level documented_levels ->
  is_Some (Loguru.level level) /\ is_Some (Logging.getattr level).
Proof.
  simpl. intros [<-|[<-|[<-|[<-|[]]]]]; split; eexists; reflexivity.
Qed.

(** A level name that loguru knows and [logging] does not: the call
    raises before the second loop is reached. *)
Example setup_logging_trace st :
  fst (utils_logger.setup_logging "TRACE" st) = Some "AttributeError".
Proof. reflexivity. Qed.

(** C9. For every level that the documentation of [setup_logging] lists
    (DEBUG, INFO, WARNING, ERROR), the call returns and leaves each of
    the seven loggers [httpx], [httpcore], [httpcore.connection],
    [httpcore.http11], [httpcore.http2], [urllib3] and
    [urllib3.connectionpool] at level WARNING (30) with propagation off,
    whatever the level is and whatever the loggers were before. *)
Theorem noisy_loggers_silenced level st :
  In level documented_levels ->
  exists st',
    utils_logger.setup_logging level st = (None, st')
    /\ forall n,
         In n ["httpx"; "httpcore"; "httpcore.connection"; "httpcore.http11";
               "httpcore.http2"; "urllib3"; "urllib3.connectionpool"] ->
         exists l, utils_logger.loggers st' !! n = Some l
                   /\ Logging.level l = 30
                   /\ Logging.propagate l = false.
Proof.
  intros H. apply documented_levels_known in H as [H1 H2].
  destruct (setup_logging_silences level st H1 H2) as (st' & Hrun & Hall).
  exists st'. split; [assumption|].
  intros n Hn. exists silenced. split; [|split; reflexivity].
  apply Hall. exact Hn.
Qed.

(** ** The sink's rendering of the template *)

Section Rendering.

Variable r : Loguru.Record_.

Lemma prepend_app p q (k : Loguru.Rendered) :
  Loguru.prepend p (Loguru.prepend q k) = Loguru.prepend (p +:+ q) k.
Proof. destruct k; simpl; [|reflexivity..]. now rewrite str_app_assoc. Qed.

(** Literal text free of braces and [<] goes to the line as it is. *)
Lemma format_go_literal p s :
  plain p = true ->
  Loguru.format_go r None (p +:+ s) = Loguru.prepend p (Loguru.format_go r None s).
Proof.
  induction p as [|c p IH]; intros Hp.
  - change ("" +:+ s) with s. destruct (Loguru.format_go r None s); reflexivity.
  - simpl in Hp. apply andb_true_iff in Hp as [Hc Hp].
    unfold plain_char in Hc. apply negb_true_iff in Hc.
    apply orb_false_iff in Hc as [Hc H3]. apply orb_false_iff in Hc as [H1 H2].
    rewrite str_app_cons. simpl. rewrite H1, H2, H3, (IH Hp).
    apply (prepend_app (String c "") p).
Qed.

Lemma format_go_field acc fld rest :
  no_brace fld = true ->
  Loguru.format_go r (Some acc) (fld +:+ String "}" rest)
  = Loguru.and_then (Loguru.format_field r (acc +:+ fld)) (Loguru.format_go r None rest).
Proof.
  revert acc. induction fld as [|c f IH]; intros acc Hf.
  - rewrite str_app_nil_r. reflexivity.
  - simpl in Hf. apply andb_true_iff in Hf as [Hc Hf].
    apply negb_true_iff, orb_false_iff in Hc as [H1 H2].
    rewrite str_app_cons. simpl. rewrite H1, H2, (IH _ Hf).
    rewrite str_app_assoc. reflexivity.
Qed.

(** A replacement field is looked up in the record. *)
Lemma format_go_open fld rest :
  no_brace fld = true ->
  Loguru.format_go r None ("{" +:+ fld +:+ "}" +:+ rest)
  = Loguru.and_then (Loguru.format_field r fld) (Loguru.format_go r None rest).
Proof.
  intros Hf. change ("}" +:+ rest) with (String "}" rest).
  transitivity (Loguru.format_go r (Some "") (fld +:+ String "}" rest));
    [|rewrite format_go_field by assumption; reflexivity].
  change ("{" +:+ fld +:+ String "}" rest) with (String "{" (fld +:+ String "}" rest)).
  destruct fld as [|c f]; [reflexivity|].
  simpl in Hf. apply andb_true_iff in Hf as [Hc _].
  apply negb_true_iff, orb_false_iff in Hc as [H1 _].
  rewrite str_app_cons. simpl.
  destruct (Ascii.eqb_spec c "{"); [discriminate|].
  destruct c as [[] [] [] [] [] [] [] []]; try reflexivity. congruence.
Qed.

(** For a logger name free of braces and [<], the line is the one the
    template describes, for every level, function, line and message. *)
Lemma format_record_plain_name :
  plain (shown_name r) = true ->
  Loguru.format_map (utils_logger.format_record r) r
  = Loguru.Line (expected_line r (shown_name r)).
Proof.
  intros Hp. unfold Loguru.format_map, utils_logger.format_record.
  fold (shown_name r).
  change ("{time:YYYY-MM-DD HH:mm:ss.SSS} | {level: <8} | " +:+ shown_name r
            +:+ ":{function}:{line} - {message}" +:+ Py.nl)
    with ("{" +:+ "time:YYYY-MM-DD HH:mm:ss.SSS" +:+ "}" +:+ " | "
            +:+ "{" +:+ "level: <8" +:+ "}" +:+ " | " +:+ shown_name r +:+ ":"
            +:+ "{" +:+ "function" +:+ "}" +:+ ":"
            +:+ "{" +:+ "line" +:+ "}" +:+ " - "
            +:+ "{" +:+ "message" +:+ "}" +:+ Py.nl +:+ "").
  repeat first
    [ rewrite format_go_open by reflexivity
    | rewrite format_go_literal by (reflexivity || assumption) ].
  reflexivity.
Qed.

End Rendering.

(** C5, at the input where the code leaves the template. After
    [setup_logging("INFO")] the one sink formats with [format_record].
    The record of the example (INFO, [test], [f], 10, [hello]) is written as
    [<timestamp> | INFO     | test:f:10 - hello]. The same call on a
    logger named [{message}] is written with the message in the place of
    the logger name, and on a logger named [a{b}] formatting raises and
    no line is written: [format_record] puts the logger name into the
    template, where braces are syntax. *)
Theorem format_record_brace_logger_name :
  utils_logger.sinks (snd (utils_logger.setup_logging "INFO" Sample.registry))
  = [Sample.stdout_handler]
  /\ Loguru.handler_emit Sample.stdout_handler Sample.info_record
  = Some (Loguru.Line ("2024-05-01 12:00:00.000 | INFO     | test:f:10 - hello" +:+ Py.nl))
  /\ shown_name Sample.brace_record = "{message}"
  /\ Loguru.handler_emit Sample.stdout_handler Sample.brace_record
     = Some (Loguru.Line ("2024-05-01 12:00:00.000 | INFO     | hello:f:10 - hello" +:+ Py.nl))
  /\ expected_line Sample.brace_record "{message}"
     = "2024-05-01 12:00:00.000 | INFO     | {message}:f:10 - hello" +:+ Py.nl
  /\ shown_name Sample.key_record = "a{b}"
  /\ Loguru.handler_emit Sample.stdout_handler Sample.key_record = Some Loguru.FormatError.
Proof. repeat split; vm_compute; reflexivity. Qed.

(** ** The interception handler *)

(** C6, as amended. A record of the standard logging facility whose
    level name loguru knows, or whose level number is not negative, is
    handed to loguru with the original logger name bound as [name] (the
    name [format_record] shows), with the original message, and with the
    original severity: the level of that name when loguru knows the name,
    the original number otherwise. Its function and line are those of
    the call inside [emit] ([emit], line 44), not those of the original
    record. *)
Theorem intercepted_record_keeps_name_and_level now record :
  is_Some (Loguru.level (Logging.levelname record)) \/ 0 <= Logging.levelno record ->
  exists r,
    utils_logger.emit now record = Some r
    /\ shown_name r = Logging.name record
    /\ Loguru.message r = Logging.getMessage record
    /\ Loguru.function r = "emit"
    /\ Loguru.line r = 44
    /\ match Loguru.level (Logging.levelname record) with
       | Some l => Loguru.rlevel r = l /\ Loguru.level_name l = Logging.levelname record
       | None => Loguru.level_no (Loguru.rlevel r) = Logging.levelno record
       end.
Proof.
  intros H. unfold utils_logger.emit.
  destruct (Loguru.level (Logging.levelname record)) as [l|] eqn:Hl.
  - assert (Hn : Loguru.level_name l = Logging.levelname record).
    { unfold Loguru.level in Hl.
      destruct (Loguru.assoc _ _); [|discriminate]. now inversion Hl. }
    unfold Loguru.log. rewrite Hn, Hl. simpl.
    eexists. split; [reflexivity|]. unfold shown_name. simpl.
    rewrite lookup_insert_eq. repeat split; assumption.
  - destruct H as [[l Hl']|H]; [discriminate|].
    unfold Loguru.log.
    destruct (Z.ltb_spec (Logging.levelno record) 0) as [Hneg|_]; [lia|].
    eexists. split; [reflexivity|]. unfold shown_name. simpl.
    rewrite lookup_insert_eq. repeat split.
Qed.

(** ** The theorems at sample inputs *)



Lemma version_placeholder_without_warning_witness :
  get_app_version (Loaded Sample.manifest_without_version) [] = (Ok (Py.VStr "0.0.0"), []).
Proof.
  apply (version_placeholder_without_warning Sample.manifest_without_version []).
  right. eexists. split; reflexivity.
Defined.



Lemma noisy_loggers_silenced_witness :
  exists st' l,
    utils_logger.setup_logging "INFO" Sample.registry = (None, st')
    /\ utils_logger.loggers st' !! "httpcore.http2" = Some l
    /\ Logging.level l = 30
    /\ Logging.propagate l = false.
Proof.
  destruct (noisy_loggers_silenced "INFO" Sample.registry) as (st' & H & Hall).
  - simpl. tauto.
  - destruct (Hall "httpcore.http2") as (l & Hl & Hlev & Hprop).
    + simpl. tauto.
    + exists st', l. repeat split; assumption.
Defined.

Lemma intercepted_record_keeps_name_and_level_witness :
  exists r,
    utils_logger.emit Sample.clock Sample.audit_record = Some r
    /\ shown_name r = "audit"
    /\ Loguru.level_no (Loguru.rlevel r) = 35.
Proof.
  destruct (intercepted_record_keeps_name_and_level Sample.clock Sample.audit_record)
    as (r & H1 & H2 & _ & _ & _ & H3).
  - right. simpl. lia.
  - exists r. repeat split; assumption.
Defined.

Lemma intercepted_record_loses_function_and_line :
  (Loguru.function <$> utils_logger.emit Sample.clock Sample.uvicorn_record) = Some "emit"
  /\ (Loguru.line <$> utils_logger.emit Sample.clock Sample.uvicorn_record) = Some 44
  /\ Logging.funcName Sample.uvicorn_record = "serve"
  /\ Logging.lineno Sample.uvicorn_record = 84.
Proof. repeat split. Qed.


(** * Further properties of the code *)

(** ** The configured origins *)

Lemma split_cons sep s : exists w ws, Py.split sep s = w :: ws.
Proof.
  induction s as [|c s (w & ws & IH)]; simpl; [eauto|].
  destruct (Ascii.eqb c sep); [eauto|]. rewrite IH. eauto.
Qed.

Lemma mem_cons_false c d s :
  Py.mem c (String d s) = false -> Ascii.eqb d c = false /\ Py.mem c s = false.
Proof.
  simpl. intros H. apply orb_false_iff in H as [H1 H2].
  rewrite Ascii.eqb_sym. split; assumption.
Qed.

Lemma split_no_sep sep p : Py.mem sep p = false -> Py.split sep p = [p].
Proof.
  induction p as [|c p IH]; [reflexivity|]. intros H.
  apply mem_cons_false in H as [Hc Hp]. simpl. rewrite Hc, (IH Hp). reflexivity.
Qed.

Lemma split_app_sep sep p s :
  Py.mem sep p = false ->
  Py.split sep (p +:+ String sep s) = p :: Py.split sep s.
Proof.
  induction p as [|c p IH]; intros H.
  - change ("" +:+ String sep s) with (String sep s). simpl.
    rewrite Ascii.eqb_refl. reflexivity.
  - apply mem_cons_false in H as [Hc Hp].
    rewrite str_app_cons. simpl. rewrite Hc, (IH Hp). reflexivity.
Qed.

Lemma split_join (l : list string) :
  Forall (fun o => Py.mem "," o = false) l ->
  Py.split "," (Py.join "," l) = match l with [] => [""] | _ => l end.
Proof.
  induction 1 as [|o l Ho Hl IH]; [reflexivity|].
  destruct l as [|o' l'].
  - simpl. now apply split_no_sep.
  - change (Py.join "," (o :: o' :: l')) with (o +:+ String "," (Py.join "," (o' :: l'))).
    rewrite split_app_sep by assumption. rewrite IH. reflexivity.
Qed.

Lemma rstrip_chars_id p s c :
  last_char s = Some c -> p c = false -> Py.rstrip_chars p s = s.
Proof.
  induction s as [|x s IH]; [discriminate|].
  destruct s as [|y s'].
  - simpl. intros [= ->] ->. reflexivity.
  - intros Hl Hc. change (last_char (String x (String y s'))) with (last_char (String y s')) in Hl.
    specialize (IH Hl Hc).
    change (Py.rstrip_chars p (String x (String y s')))
      with (match Py.rstrip_chars p (String y s') with
            | "" => if p x then "" else String x ""
            | r => String x r
            end).
    rewrite IH. reflexivity.
Qed.

Lemma clean_origin_kept o :
  clean_origin o = true ->
  Py.mem "," o = false
  /\ Py.truthy (Py.strip o) = true
  /\ Py.rstrip "/" (Py.strip o) = o.
Proof.
  unfold clean_origin. intros H.
  apply andb_true_iff in H as [H Hslash]. apply andb_true_iff in H as [H Hlast].
  apply andb_true_iff in H as [Hcomma Hfirst].
  apply negb_true_iff in Hcomma. apply negb_true_iff, bool_decide_eq_false in Hslash.
  destruct o as [|c o]; [discriminate|].
  simpl in Hfirst. apply negb_true_iff in Hfirst.
  destruct (last_char (String c o)) as [d|] eqn:Hd; [|discriminate].
  simpl in Hlast. apply negb_true_iff in Hlast.
  assert (Hstrip : Py.strip (String c o) = String c o).
  { unfold Py.strip. simpl. rewrite Hfirst. now apply (rstrip_chars_id _ _ d). }
  rewrite Hstrip. repeat split; [assumption|].
  unfold Py.rstrip. apply (rstrip_chars_id _ _ d); [assumption|].
  destruct (Ascii.eqb_spec "/" d) as [<-|]; [|reflexivity]. now exfalso.
Qed.

(** X1. A list of origins written the way they are kept (no comma, no
    whitespace at either end, no slash at the end, not empty), joined
    with commas, is read back as that very list; the empty list too. *)
Theorem parse_origins_join (l : list string) :
  Forall (fun o => clean_origin o = true) l ->
  config_app.parse_origins (Py.join "," l) = l.
Proof.
  intros Hl. unfold config_app.parse_origins.
  rewrite split_join.
  2:{ eapply Forall_impl; [exact Hl|]. intros o Ho. now apply clean_origin_kept. }
  destruct l as [|o l]; [reflexivity|].
  induction Hl as [|x xs Hx Hxs IH]; [reflexivity|].
  destruct (clean_origin_kept x Hx) as (_ & Ht & Hr).
  simpl. rewrite Ht. simpl. rewrite Hr. f_equal. exact IH.
Qed.

Lemma mem_app_false c a b :
  Py.mem c a = false -> Py.mem c b = false -> Py.mem c (a +:+ b) = false.
Proof.
  induction a as [|x a IH]; intros Ha Hb; [exact Hb|].
  rewrite str_app_cons. simpl in *. apply orb_false_iff in Ha as [H1 H2].
  rewrite H1. simpl. now apply IH.
Qed.

Lemma all_chars_mem_false p c s :
  p c = false -> all_chars p s = true -> Py.mem c s = false.
Proof.
  intros Hc. induction s as [|x s IH]; [reflexivity|]. simpl.
  intros H. apply andb_true_iff in H as [Hx Hs]. rewrite (IH Hs), orb_false_r.
  destruct (Ascii.eqb_spec c x) as [->|]; [congruence|reflexivity].
Qed.

Lemma lstrip_chars_app_all p ws a :
  all_chars p ws = true -> Py.lstrip_chars p (ws +:+ a) = Py.lstrip_chars p a.
Proof.
  induction ws as [|x ws IH]; intros H; [reflexivity|].
  simpl in H. apply andb_true_iff in H as [Hx Hws].
  rewrite str_app_cons. simpl. rewrite Hx. now apply IH.
Qed.

Lemma rstrip_chars_all p ws : all_chars p ws = true -> Py.rstrip_chars p ws = "".
Proof.
  induction ws as [|x ws IH]; intros H; [reflexivity|].
  simpl in H. apply andb_true_iff in H as [Hx Hws].
  simpl. rewrite (IH Hws), Hx. reflexivity.
Qed.

Lemma rstrip_chars_app p a b :
  Py.rstrip_chars p (a +:+ b)
  = match Py.rstrip_chars p b with
    | "" => Py.rstrip_chars p a
    | r => a +:+ r
    end.
Proof.
  induction a as [|x a IH].
  - change ("" +:+ b) with b. destruct (Py.rstrip_chars p b); reflexivity.
  - rewrite str_app_cons. simpl. rewrite IH.
    destruct (Py.rstrip_chars p b) as [|y r]; [reflexivity|].
    destruct a; reflexivity.
Qed.

Lemma rstrip_chars_app_all p a ws :
  all_chars p ws = true -> Py.rstrip_chars p (a +:+ ws) = Py.rstrip_chars p a.
Proof. intros H. rewrite rstrip_chars_app, (rstrip_chars_all _ _ H). reflexivity. Qed.

Lemma last_char_app_all (a b : string) c :
  last_char a = Some c -> b <> "" -> last_char (a +:+ b) = last_char b.
Proof.
  induction a as [|x a IH]; [discriminate|].
  intros Ha Hb. rewrite str_app_cons.
  destruct a as [|y a'].
  - change ("" +:+ b) with b. destruct b; [congruence|reflexivity].
  - change (last_char (String x (String y a' +:+ b))) with (last_char (String y a' +:+ b)).
    rewrite str_app_cons. rewrite <- str_app_cons. apply IH; [exact Ha|exact Hb].
Qed.

Lemma last_char_all p s c : all_chars p s = true -> last_char s = Some c -> p c = true.
Proof.
  induction s as [|x s IH]; [discriminate|].
  simpl. intros H. apply andb_true_iff in H as [Hx Hs].
  destruct s; [intros [= <-]; exact Hx|]. now apply IH.
Qed.

(** X2. Whitespace before an origin, slashes after it and whitespace
    after those are all dropped: the entry is configured as the origin
    alone. *)
Theorem parse_origins_ignores_decoration ws1 o slashes ws2 :
  clean_origin o = true ->
  all_chars Py.is_space ws1 = true ->
  all_chars (Ascii.eqb "/") slashes = true ->
  all_chars Py.is_space ws2 = true ->
  config_app.parse_origins (ws1 +:+ o +:+ slashes +:+ ws2) = [o].
Proof.
  intros Ho H1 Hs H2.
  pose proof (clean_origin_kept o Ho) as (Hcomma & _ & _).
  unfold clean_origin in Ho.
  apply andb_true_iff in Ho as [Ho Hslash]. apply andb_true_iff in Ho as [Ho Hlast].
  apply andb_true_iff in Ho as [_ Hfirst].
  apply negb_true_iff, bool_decide_eq_false in Hslash.
  destruct o as [|c o]; [discriminate|].
  simpl in Hfirst. apply negb_true_iff in Hfirst.
  destruct (last_char (String c o)) as [d|] eqn:Hd; [|discriminate].
  simpl in Hlast. apply negb_true_iff in Hlast.
  assert (Hd' : Ascii.eqb "/" d = false).
  { destruct (Ascii.eqb_spec "/" d) as [<-|]; [now exfalso|reflexivity]. }
  unfold config_app.parse_origins.
  rewrite split_no_sep.
  2:{ repeat apply mem_app_false; try assumption;
      eapply all_chars_mem_false; try eassumption; reflexivity. }
  assert (Hstrip : Py.strip (ws1 +:+ String c o +:+ slashes +:+ ws2) = String c o +:+ slashes).
  { unfold Py.strip. rewrite lstrip_chars_app_all by assumption.
    rewrite str_app_cons. simpl. rewrite Hfirst. rewrite <- str_app_cons.
    rewrite <- str_app_assoc. rewrite rstrip_chars_app_all by assumption.
    destruct slashes as [|s ss].
    - rewrite str_app_nil_r. now apply (rstrip_chars_id _ _ d).
    - destruct (last_char (String s ss)) as [e|] eqn:He.
      + apply (rstrip_chars_id _ _ e).
        * rewrite (last_char_app_all _ _ d Hd); [exact He|discriminate].
        * pose proof (last_char_all _ _ _ Hs He) as Hse.
          apply Ascii.eqb_eq in Hse. subst e. reflexivity.
      + exfalso. clear -He. revert s He. induction ss as [|y ss IH]; intros s He; [discriminate|].
        exact (IH y He). }
  simpl. rewrite Hstrip.
  change (Py.truthy (String c o +:+ slashes)) with true. simpl. rewrite Hstrip. f_equal.
  unfold Py.rstrip.
  rewrite rstrip_chars_app_all by assumption.
  now apply (rstrip_chars_id _ _ d).
Qed.

Lemma blank_split s :
  blank s = forallb (all_chars Py.is_space) (Py.split "," s).
Proof.
  unfold blank. induction s as [|c s IH]; [reflexivity|].
  simpl. destruct (split_cons "," s) as (w & ws & Hs). rewrite Hs in *.
  destruct (Ascii.eqb c ","); simpl in *.
  - rewrite orb_true_r. exact IH.
  - rewrite orb_false_r, IH, andb_assoc. reflexivity.
Qed.

Lemma rstrip_chars_keeps_first p c t :
  p c = false -> exists r, Py.rstrip_chars p (String c t) = String c r.
Proof.
  intros Hc. simpl. destruct (Py.rstrip_chars p t); rewrite ?Hc; eauto.
Qed.

Lemma lstrip_chars_cases p s :
  (all_chars p s = true /\ Py.lstrip_chars p s = "")
  \/ (all_chars p s = false
      /\ exists c t, Py.lstrip_chars p s = String c t /\ p c = false).
Proof.
  induction s as [|x s IH]; [left; split; reflexivity|].
  simpl. destruct (p x) eqn:Hx; simpl; [exact IH|].
  right. split; [reflexivity|]. eauto.
Qed.

Lemma strip_truthy s : Py.truthy (Py.strip s) = negb (all_chars Py.is_space s).
Proof.
  unfold Py.strip.
  destruct (lstrip_chars_cases Py.is_space s) as [(Ha & ->) | (Ha & c & t & -> & Hc)];
    rewrite Ha; [reflexivity|].
  destruct (rstrip_chars_keeps_first _ _ t Hc) as (r & ->). reflexivity.
Qed.

Lemma filter_nil {A} (g : A -> bool) l :
  List.filter g l = [] <-> forallb (fun x => negb (g x)) l = true.
Proof.
  induction l as [|x l IH]; simpl; [tauto|].
  destruct (g x); simpl; [split; discriminate|exact IH].
Qed.

Lemma forallb_pointwise {A} (f g : A -> bool) l :
  (forall x, f x = g x) -> forallb f l = forallb g l.
Proof. intros H. induction l as [|x l IH]; simpl; [reflexivity|]. now rewrite H, IH. Qed.

Lemma parse_origins_empty_iff_blank raw :
  config_app.parse_origins raw = [] <-> blank raw = true.
Proof.
  unfold config_app.parse_origins. rewrite blank_split.
  split.
  - intros H. apply map_eq_nil in H. apply filter_nil in H.
    erewrite forallb_pointwise; [exact H|].
    intros x. simpl. now rewrite strip_truthy, negb_involutive.
  - intros H. replace (List.filter _ _) with (@nil string); [reflexivity|].
    symmetry. apply filter_nil.
    erewrite forallb_pointwise; [exact H|].
    intros x. simpl. now rewrite strip_truthy, negb_involutive.
Qed.

(** X3. When the variable [ALLOWED_ORIGINS] is set, the configured list
    is empty exactly when its value holds nothing but whitespace and
    commas: a value that is set but blank does not fall back to
    [BASE_WEB_URL]. *)
Theorem allowed_origins_empty_iff_blank env raw :
  env !! "ALLOWED_ORIGINS" = Some raw ->
  (config_app.ALLOWED_ORIGINS env = [] <-> blank raw = true).
Proof.
  intros H. unfold config_app.ALLOWED_ORIGINS, config_app.ALLOWED_ORIGINS_RAW, config_app.getenv.
  rewrite H. apply parse_origins_empty_iff_blank.
Qed.

Lemma split_pieces_no_sep sep s :
  Forall (fun w => Py.mem sep w = false) (Py.split sep s).
Proof.
  induction s as [|c s IH]; simpl.
  - repeat constructor.
  - destruct (Ascii.eqb c sep) eqn:Hc.
    + constructor; [reflexivity|exact IH].
    + destruct (Py.split sep s) as [|w ws]; [repeat constructor; simpl|].
      * rewrite Ascii.eqb_sym, Hc. reflexivity.
      * inversion IH; subst. constructor; [|assumption].
        simpl. rewrite Ascii.eqb_sym, Hc. assumption.
Qed.

Lemma mem_lstrip_chars p c s :
  Py.mem c s = false -> Py.mem c (Py.lstrip_chars p s) = false.
Proof.
  induction s as [|x s IH]; [reflexivity|]. intros H. simpl.
  destruct (p x); [|exact H]. apply IH.
  simpl in H. now apply orb_false_iff in H as [_ H].
Qed.

Lemma mem_rstrip_chars p c s :
  Py.mem c s = false -> Py.mem c (Py.rstrip_chars p s) = false.
Proof.
  induction s as [|x s IH]; [reflexivity|]. intros H.
  simpl in H. apply orb_false_iff in H as [Hx Hs]. specialize (IH Hs).
  simpl. destruct (Py.rstrip_chars p s) as [|y r].
  - destruct (p x); simpl; [reflexivity|]. now rewrite Hx.
  - simpl in *. now rewrite Hx, IH.
Qed.

Lemma first_char_rstrip_chars p s c :
  first_char (Py.rstrip_chars p s) = Some c -> first_char s = Some c.
Proof.
  destruct s as [|x s]; [discriminate|]. simpl.
  destruct (Py.rstrip_chars p s); [destruct (p x)|]; simpl; congruence.
Qed.

Lemma first_char_lstrip_chars p s c :
  first_char (Py.lstrip_chars p s) = Some c -> p c = false.
Proof.
  destruct (lstrip_chars_cases p s) as [(_ & ->) | (_ & x & t & -> & Hx)];
    [discriminate|]. simpl. congruence.
Qed.

(** X4. Whatever the value, no configured origin holds a comma, and
    none begins with whitespace: each is empty or begins with a character
    that is not whitespace. *)
Theorem parse_origins_entries raw :
  Forall (fun o => Py.mem "," o = false
                   /\ (o = "" \/ not_space (first_char o) = true))
         (config_app.parse_origins raw).
Proof.
  unfold config_app.parse_origins. apply Forall_forall. intros o Ho.
  apply list_elem_of_In, in_map_iff in Ho as (x & <- & Hx).
  apply filter_In in Hx as [Hx _].
  pose proof (split_pieces_no_sep "," raw) as Hall.
  rewrite Forall_forall in Hall. specialize (Hall x (proj2 (list_elem_of_In _ _) Hx)).
  split.
  - unfold Py.rstrip, Py.strip.
    now apply mem_rstrip_chars, mem_rstrip_chars, mem_lstrip_chars.
  - destruct (Py.rstrip "/" (Py.strip x)) as [|c t] eqn:Ho; [left; reflexivity|].
    right. simpl. apply negb_true_iff.
    assert (Hc : first_char (Py.rstrip "/" (Py.strip x)) = Some c) by (rewrite Ho; reflexivity).
    unfold Py.rstrip, Py.strip in Hc.
    apply first_char_rstrip_chars, first_char_rstrip_chars in Hc.
    now apply first_char_lstrip_chars in Hc.
Qed.

(** ** More on [setup_logging] *)

Lemma inb_cons x y l : inb x (y :: l) = String.eqb x y || inb x l.
Proof. reflexivity. Qed.

Lemma configure_run v names (reg : gmap string Logging.Logger) :
  fst (utils_logger.configure (Some v) names reg) = None
  /\ forall n,
       snd (utils_logger.configure (Some v) names reg) !! n
       = if inb n names then Some (intercepted v) else reg !! n.
Proof.
  revert reg. induction names as [|m names IH]; intros reg; [split; reflexivity|].
  change (utils_logger.configure (Some v) (m :: names) reg)
    with (utils_logger.configure (Some v) names (<[m := intercepted v]> reg)).
  destruct (IH (<[m := intercepted v]> reg)) as [H1 H2].
  split; [exact H1|]. intros n. rewrite H2, inb_cons.
  destruct (inb n names); [now rewrite orb_true_r|]. rewrite orb_false_r.
  destruct (String.eqb_spec n m) as [->|Hne].
  - apply lookup_insert_eq.
  - apply lookup_insert_ne. congruence.
Qed.

Lemma silence_lookup names (reg : gmap string Logging.Logger) n :
  foldl utils_logger.silence reg names !! n
  = if inb n names then Some silenced else reg !! n.
Proof.
  revert reg. induction names as [|m names IH]; intros reg; [reflexivity|].
  change (foldl utils_logger.silence reg (m :: names))
    with (foldl utils_logger.silence (utils_logger.silence reg m) names).
  rewrite IH, inb_cons.
  destruct (inb n names); [now rewrite orb_true_r|]. rewrite orb_false_r.
  unfold utils_logger.silence.
  destruct (String.eqb_spec n m) as [->|Hne].
  - apply lookup_insert_eq.
  - apply lookup_insert_ne. congruence.
Qed.

(** The state a successful [setup_logging] leaves. *)
Lemma setup_logging_run level st l v :
  Loguru.level level = Some l ->
  Logging.getattr level = Some v ->
  exists reg,
    utils_logger.setup_logging level st
    = (None, {| utils_logger.sinks := [{| Loguru.levelno := Loguru.level_no l;
                                          Loguru.formatter := utils_logger.format_record |}];
                utils_logger.loggers := reg |})
    /\ forall n,
         reg !! n
         = if inb n utils_logger.noisy_logger_names then Some silenced
           else if inb n utils_logger.logger_names then Some (intercepted v)
           else if String.eqb n Logging.root
                then Some {| Logging.handlers := [Logging.InterceptHandler];
                             Logging.level := 0;
                             Logging.propagate :=
                               Logging.propagate
                                 (Logging.getLogger Logging.root (utils_logger.loggers st)) |}
                else utils_logger.loggers st !! n.
Proof.
  intros Hl Hv. unfold utils_logger.setup_logging. rewrite Hl, Hv.
  match goal with |- context [utils_logger.configure (Some v) ?ns ?r] =>
    destruct (configure_run v ns r) as [H1 H2];
    destruct (utils_logger.configure (Some v) ns r) as [e reg1] end.
  cbn [fst snd] in H1, H2. subst e.
  eexists. split; [reflexivity|].
  intros n. rewrite silence_lookup, H2.
  destruct (inb n utils_logger.noisy_logger_names); [reflexivity|].
  destruct (inb n utils_logger.logger_names); [reflexivity|].
  destruct (String.eqb_spec n Logging.root) as [->|Hne].
  - apply lookup_insert_eq.
  - apply lookup_insert_ne. congruence.
Qed.

Lemma accepted_levels_known level :
  In level accepted_levels ->
  exists l v, Loguru.level level = Some l /\ Logging.getattr level = Some v
              /\ Loguru.level_no l = v.
Proof.
  simpl. intros [<-|[<-|[<-|[<-|[<-|[]]]]]]; eexists _, _; repeat split.
Qed.

(** X5. After [setup_logging] with one of the five level names it
    accepts, the registry of standard loggers is known in full: the seven
    noisy loggers have no handler, level WARNING and no propagation; the
    five server and framework loggers have the interception handler
    alone, the numeric level of the name and no propagation; the root
    logger has the interception handler alone and level 0 and keeps its
    propagation flag; every other logger is as it was. *)
Theorem setup_logging_registry level st n :
  In level accepted_levels ->
  exists st' v,
    utils_logger.setup_logging level st = (None, st')
    /\ Logging.getattr level = Some v
    /\ utils_logger.loggers st' !! n
       = if inb n ["httpx"; "httpcore"; "httpcore.connection"; "httpcore.http11";
                   "httpcore.http2"; "urllib3"; "urllib3.connectionpool"]
         then Some silenced
         else if inb n ["uvicorn"; "uvicorn.access"; "uvicorn.error"; "fastapi"; "asyncio"]
         then Some (intercepted v)
         else if String.eqb n "root"
              then Some {| Logging.handlers := [Logging.InterceptHandler];
                           Logging.level := 0;
                           Logging.propagate :=
                             Logging.propagate
                               (Logging.getLogger "root" (utils_logger.loggers st)) |}
              else utils_logger.loggers st !! n.
Proof.
  intros H. destruct (accepted_levels_known level H) as (l & v & Hl & Hv & Hlv).
  destruct (setup_logging_run level st l v Hl Hv) as (reg & Hrun & Hreg).
  eexists _, v. split; [exact Hrun|]. split; [exact Hv|apply Hreg].
Qed.

(** X6. Configuring again replaces and never accumulates: calling
    [setup_logging] after an earlier call leaves exactly the state that
    the later call alone would leave, one sink included. *)
Theorem setup_logging_replaces level1 level2 st :
  In level1 accepted_levels ->
  In level2 accepted_levels ->
  utils_logger.setup_logging level2 (snd (utils_logger.setup_logging level1 st))
  = utils_logger.setup_logging level2 st.
Proof.
  intros H1 H2.
  destruct (accepted_levels_known level1 H1) as (l1 & v1 & Hl1 & Hv1 & _).
  destruct (accepted_levels_known level2 H2) as (l2 & v2 & Hl2 & Hv2 & _).
  destruct (setup_logging_run level1 st l1 v1 Hl1 Hv1) as (reg1 & Hrun1 & Hreg1).
  rewrite Hrun1. cbn [snd].
  destruct (setup_logging_run level2 st l2 v2 Hl2 Hv2) as (reg2 & Hrun2 & Hreg2).
  match goal with |- utils_logger.setup_logging level2 ?s = _ =>
    destruct (setup_logging_run level2 s l2 v2 Hl2 Hv2) as (reg3 & Hrun3 & Hreg3) end.
  cbn [utils_logger.loggers] in Hreg3.
  rewrite Hrun2, Hrun3. do 2 f_equal.
  apply map_eq. intros n. rewrite Hreg2, Hreg3.
  destruct (inb n utils_logger.noisy_logger_names) eqn:Hn'; [reflexivity|].
  destruct (inb n utils_logger.logger_names) eqn:Hn; [reflexivity|].
  destruct (String.eqb_spec n Logging.root) as [->|Hne].
  - unfold Logging.getLogger at 1. rewrite Hreg1. reflexivity.
  - rewrite Hreg1, Hn', Hn.
    destruct (String.eqb_spec n Logging.root); [contradiction|reflexivity].
Qed.

(** X7. [setup_logging] returns normally exactly for DEBUG, INFO,
    WARNING, ERROR and CRITICAL; for TRACE and SUCCESS, which loguru knows
    and [logging] does not, it raises [AttributeError]; for every other
    name it raises [ValueError]. *)
Theorem setup_logging_outcome level st :
  fst (utils_logger.setup_logging level st)
  = if inb level accepted_levels then None
    else if inb level ["TRACE"; "SUCCESS"] then Some "AttributeError"
    else Some "ValueError".
Proof.
  unfold inb, accepted_levels. cbn [existsb orb].
  destruct (String.eqb_spec level "DEBUG") as [->|H1]; [reflexivity|].
  destruct (String.eqb_spec level "INFO") as [->|H2]; [reflexivity|].
  destruct (String.eqb_spec level "WARNING") as [->|H3]; [reflexivity|].
  destruct (String.eqb_spec level "ERROR") as [->|H4]; [reflexivity|].
  destruct (String.eqb_spec level "CRITICAL") as [->|H5]; [reflexivity|].
  destruct (String.eqb_spec level "TRACE") as [->|H6]; [reflexivity|].
  destruct (String.eqb_spec level "SUCCESS") as [->|H7]; [reflexivity|].
  assert (Hnone : Loguru.level level = None).
  { unfold Loguru.level, Loguru.levels. cbn [Loguru.assoc].
    repeat match goal with
           | |- context [String.eqb ?a level] =>
               destruct (String.eqb_spec a level); [congruence|]
           end.
    reflexivity. }
  unfold utils_logger.setup_logging. rewrite Hnone. reflexivity.
Qed.

(** X8. When [setup_logging] raises [AttributeError] it has already
    replaced the loguru sink and the handlers of the root logger, whose
    level it has set to 0, and of [uvicorn], whose level and propagation
    are not yet changed; every other logger, the noisy ones included, is
    left as it was. *)
Theorem setup_logging_partial level st l :
  Loguru.level level = Some l ->
  Logging.getattr level = None ->
  exists st',
    utils_logger.setup_logging level st = (Some "AttributeError", st')
    /\ utils_logger.sinks st'
       = [{| Loguru.levelno := Loguru.level_no l;
             Loguru.formatter := utils_logger.format_record |}]
    /\ utils_logger.loggers st' !! "root"
       = Some {| Logging.handlers := [Logging.InterceptHandler];
                 Logging.level := 0;
                 Logging.propagate :=
                   Logging.propagate (Logging.getLogger "root" (utils_logger.loggers st)) |}
    /\ utils_logger.loggers st' !! "uvicorn"
       = Some {| Logging.handlers := [Logging.InterceptHandler];
                 Logging.level :=
                   Logging.level (Logging.getLogger "uvicorn" (utils_logger.loggers st));
                 Logging.propagate :=
                   Logging.propagate (Logging.getLogger "uvicorn" (utils_logger.loggers st)) |}
    /\ forall n, n <> "root" -> n <> "uvicorn" ->
         utils_logger.loggers st' !! n = utils_logger.loggers st !! n.
Proof.
  intros Hl Hv. unfold utils_logger.setup_logging. rewrite Hl, Hv.
  eexists. split; [reflexivity|]. split; [reflexivity|]. simpl.
  unfold Logging.root. split; [|split].
  - rewrite lookup_insert_ne by discriminate. apply lookup_insert_eq.
  - rewrite lookup_insert_eq. unfold Logging.getLogger.
    rewrite lookup_insert_ne by discriminate. reflexivity.
  - intros n Hr Hu. rewrite !lookup_insert_ne by congruence. reflexivity.
Qed.

(** X9. After [setup_logging(level)] there is one sink, whatever sinks
    there were; it writes nothing for a record below the severity of
    [level], and for any other record whose logger name has no brace
    and no [<] it writes the line of the template, whatever the message
    holds and whether or not an exception is attached. *)
Theorem sink_after_setup level st l r :
  Loguru.level level = Some l ->
  plain (shown_name r) = true ->
  exists h,
    utils_logger.sinks (snd (utils_logger.setup_logging level st)) = [h]
    /\ Loguru.handler_emit h r
       = if (Loguru.level_no (Loguru.rlevel r) <? Loguru.level_no l)%Z then None
         else Some (Loguru.Line (expected_line r (shown_name r))).
Proof.
  intros Hl Hp. unfold utils_logger.setup_logging. rewrite Hl.
  eexists. split.
  - destruct (utils_logger.configure _ _ _) as [[e|] reg]; reflexivity.
  - unfold Loguru.handler_emit. simpl.
    destruct (_ <? _)%Z; [reflexivity|].
    now rewrite format_record_plain_name.
Qed.

(** ** More on [InterceptHandler.emit] *)

(** X10. For a record whose message has been put together, the call
    of loguru inside [emit] raises exactly when loguru does not know the
    level name of the record and the level number is negative: a level
    name that loguru does not know is never a failure by itself. *)
Theorem emit_fails_iff now record :
  utils_logger.emit now record = None
  <-> Loguru.level (Logging.levelname record) = None /\ Logging.levelno record < 0.
Proof.
  unfold utils_logger.emit.
  destruct (Loguru.level (Logging.levelname record)) as [l|] eqn:Hl.
  - assert (Hn : Loguru.level_name l = Logging.levelname record).
    { unfold Loguru.level in Hl.
      destruct (Loguru.assoc _ _); [|discriminate]. now inversion Hl. }
    unfold Loguru.log. rewrite Hn, Hl. simpl. split; [discriminate|]. intros [? _]. discriminate.
  - unfold Loguru.log.
    destruct (Z.ltb_spec (Logging.levelno record) 0); split; try discriminate; try tauto.
    intros [_ ?]. lia.
Qed.

Lemma emit_known_level now record l :
  Loguru.level (Logging.levelname record) = Some l ->
  utils_logger.emit now record
  = Some {| Loguru.time := now; Loguru.rlevel := l;
            Loguru.name := "utils.logger"; Loguru.function := "emit"; Loguru.line := 44;
            Loguru.message := Logging.getMessage record;
            Loguru.extra := <["name" := Logging.name record]> ∅;
            Loguru.exception := Logging.exc_info record |}
    /\ Loguru.level_name l = Logging.levelname record.
Proof.
  intros Hl.
  assert (Hn : Loguru.level_name l = Logging.levelname record).
  { unfold Loguru.level in Hl.
    destruct (Loguru.assoc _ _); [|discriminate]. now inversion Hl. }
  split; [|exact Hn].
  unfold utils_logger.emit. rewrite Hl. unfold Loguru.log. rewrite Hn, Hl. reflexivity.
Qed.

(** X11. For the five standard levels of [logging], with their
    standard numbers, the record handed to loguru has the same level name
    and the same level number as the original. *)
Theorem emit_standard_level now record :
  In (Logging.levelname record, Logging.levelno record) standard_levels ->
  exists r,
    utils_logger.emit now record = Some r
    /\ Loguru.level_name (Loguru.rlevel r) = Logging.levelname record
    /\ Loguru.level_no (Loguru.rlevel r) = Logging.levelno record.
Proof.
  intros H.
  assert (Hl : Loguru.level (Logging.levelname record)
               = Some {| Loguru.level_name := Logging.levelname record;
                         Loguru.level_no := Logging.levelno record |}).
  { simpl in H. destruct H as [H|[H|[H|[H|[H|[]]]]]]; inversion H as [[Hn Hv]]; reflexivity. }
  destruct (emit_known_level now record _ Hl) as [He _].
  eexists. split; [exact He|]. split; reflexivity.
Qed.

(** X12. An intercepted record whose level name loguru knows, whose
    logger name has no brace and no [<] and whose severity passes the
    sink is written as
    [<time> | <level, padded to 8> | <logger name>:emit:44 - <message>]. *)
Theorem intercepted_line now record l threshold :
  Loguru.level (Logging.levelname record) = Some l ->
  plain (Logging.name record) = true ->
  threshold <= Loguru.level_no l ->
  utils_logger.emit now record
    ≫= Loguru.handler_emit {| Loguru.levelno := threshold;
                               Loguru.formatter := utils_logger.format_record |}
  = Some (Loguru.Line
            (now "YYYY-MM-DD HH:mm:ss.SSS" +:+ " | "
               +:+ Py.ljust 8 (Logging.levelname record) +:+ " | "
               +:+ Logging.name record +:+ ":emit:44 - "
               +:+ Logging.getMessage record +:+ Py.nl)).
Proof.
  intros Hl Hp Ht.
  destruct (emit_known_level now record l Hl) as [He Hn].
  rewrite He. simpl. unfold Loguru.handler_emit. simpl.
  destruct (Z.ltb_spec (Loguru.level_no l) threshold); [lia|].
  rewrite format_record_plain_name.
  - unfold expected_line, shown_name. simpl. rewrite lookup_insert_eq, Hn. reflexivity.
  - unfold shown_name. simpl. rewrite lookup_insert_eq. exact Hp.
Qed.

(** ** More on the application *)


(** X14. The response of a route handler goes out with its status and
    its body unchanged and the stack logs nothing on the way; for a
    request without an [Origin] header it goes out exactly as the handler
    made it. *)
Theorem route_response_passes_through origins a routes request r tr0 tr1 :
  is_preflight request = false ->
  is_probe request = false ->
  router a routes request tr0 = (Return r, tr1) ->
  exists response,
    serve (asgi origins a routes) request tr0 = (tt, (tr1 ++ [Sent response])%list)
    /\ status_code response = status_code r
    /\ content response = content r
    /\ (headers request !! "origin" = None -> response = r).
Proof.
  intros Hpre Hprobe Hroute.
  destruct (cors_return (cors_args origins) (inside_cors (router a routes)) request tr0
              r tr1 Hpre) as (r' & Hrun & Hst & Hct & Hr').
  { rewrite inside_cors_pass by assumption.
    unfold ExceptionMiddleware. rewrite bind_run, Hroute. reflexivity. }
  exists r'. split; [|split; [exact Hst|split; [exact Hct|]]].
  - apply serve_sends. now apply asgi_returned.
  - intros Ho. rewrite Ho in Hr'. exact Hr'.
Qed.

(** X15. With no wildcard configured, a preflight is answered by the
    CORS stage alone: no route handler runs, nothing is logged, and the
    status is 200 when the origin is configured, the requested method is
    one of the six allowed and every requested header is allowed, and 400
    otherwise. *)
Theorem preflight_answered_by_cors_stage origins a routes request origin tr :
  inb "*" origins = false ->
  headers request !! "origin" = Some origin ->
  is_preflight request = true ->
  exists response requested_method,
    headers request !! "access-control-request-method" = Some requested_method
    /\ asgi origins a routes request tr = (Return response, tr)
    /\ status_code response
       = if inb origin origins
            && preflight_request_allowed (cors_args origins) (headers request) requested_method
         then 200 else 400.
Proof.
  intros Hw Ho Hpre.
  assert (Hrm : exists rm, headers request !! "access-control-request-method" = Some rm
                           /\ String.eqb (method request) "OPTIONS" = true).
  { unfold is_preflight in Hpre. rewrite Ho in Hpre.
    apply andb_true_iff in Hpre as [Hm Hr].
    apply bool_decide_eq_true in Hr as [rm Hrm]. eauto. }
  destruct Hrm as (rm & Hrm & Hm).
  eexists _, rm. split; [exact Hrm|]. split.
  - apply asgi_returned. unfold CORSMiddleware. rewrite Ho, Hm, Hrm. reflexivity.
  - unfold preflight_response, preflight_request_allowed, is_allowed_origin, allow_all_origins.
    change (allow_origins (cors_args origins)) with origins. rewrite Hw.
    change (allow_all_headers (cors_args origins)) with false.
    change (methods_of (cors_args origins)) with (allow_methods (cors_args origins)).
    cbn [orb].
    destruct (inb origin origins); cbn [andb];
      destruct (inb rm (allow_methods (cors_args origins))); cbn [andb];
      destruct (headers request !! "access-control-request-headers") as [rh|];
      try destruct (headers_allowed (cors_args origins) rh); reflexivity.
Qed.

(** X16. [get_app_version] raises in two cases only: when reading the
    manifest raised something other than the two exceptions it catches,
    and when the manifest has a [project] key that is not a table. *)
Theorem get_app_version_raises m tr :
  (exists cls, fst (get_app_version m tr) = Raised cls)
  <-> (exists cls, m = OtherError cls)
      \/ (exists data v, m = Loaded data
                         /\ Py.dict_lookup "project" data = Some v
                         /\ is_dict v = false).
Proof.
  split.
  - intros (cls & H). destruct m as [e|e|c|data]; simpl in H; try discriminate.
    + left. eauto.
    + right. destruct (Py.dict_lookup "project" data) as [v|] eqn:Hp;
        [|simpl in H; discriminate H].
      exists data, v. split; [reflexivity|]. split; [exact Hp|].
      destruct v; simpl in *; try reflexivity. discriminate H.
  - intros [(cls & ->) | (data & v & -> & Hp & Hv)].
    + exists cls. reflexivity.
    + exists "AttributeError". simpl. rewrite Hp. destruct v; try reflexivity. discriminate Hv.
Qed.

(** X17. However the server run ends, the last thing the main block
    logs is [Server stopped], and neither a [KeyboardInterrupt] nor any
    [Exception] of the server leaves the block. *)
Theorem main_always_logs_stopped run tr :
  exists pre,
    snd (main run tr) = (pre ++ [Logged "INFO" "Server stopped"])%list
    /\ is_caught (fst (main run tr)) = false.
Proof.
  unfold main, logger_info, logger_error, emit_event, mbind, M_bind, mret, M_ret.
  cbn [fst snd].
  destruct (run signal_handler (tr ++ [Logged "INFO" "Starting server on host=0.0.0.0, port=8080"])%list)
    as [[[ | c | cls e | cls]|] tr1]; cbn [fst snd];
    (eexists; split; reflexivity).
Qed.

(** X18. When a run of the server is ended by [signal_handler] for
    SIGINT or SIGTERM, the main block logs the line that names the
    signal, then [Server stopped], and ends with [SystemExit(0)]. *)
Theorem signal_ends_with_exit_zero (before : M unit) signum tr :
  main (fun handler => before;; handler signum) tr
  = (Some (SystemExit 0),
     (snd (before (tr ++ [Logged "INFO" "Starting server on host=0.0.0.0, port=8080"])%list)
        ++ [Logged "INFO" ("Received " +:+ signal_name signum +:+ ", shutting down gracefully...");
            Logged "INFO" "Server stopped"])%list).
Proof.
  unfold main, signal_handler, logger_info, emit_event, mbind, M_bind, mret, M_ret.
  cbn [fst snd]. rewrite <- app_assoc. reflexivity.
Qed.


(** X20. When the manifest is missing or is not valid TOML, start-up
    goes on with the version ["0.0.0"] and logs one warning; when the
    manifest gives a version in its project table and that version is a
    true value, start-up goes on with that version; and [GET /] is
    answered with status 200 and the body
    [{"message": description, "version": version}] for the version the
    application was started with. *)
Theorem root_reports_version :
  (forall m e tr,
      m = FileNotFoundError e \/ m = TOMLDecodeError e ->
      startup m tr
      = (Ok (app (Py.VStr "0.0.0")),
         (tr ++ [Logged "WARNING" ("Could not read version from pyproject.toml: " +:+ e)])%list))
  /\ (forall pyproject_data project v tr,
         Py.dict_lookup "project" pyproject_data = Some (Py.VDict project) ->
         Py.dict_lookup "version" project = Some v ->
         startup (Loaded pyproject_data) tr
         = (if Py.truth v then Ok (app v) else Raised "AssertionError", tr))
  /\ (forall origins APP_VERSION routes request tr,
         method request = "GET" -> target request = "/" ->
         exists response,
           serve (asgi origins (app APP_VERSION) routes) request tr
           = (tt, (tr ++ [Sent response])%list)
           /\ status_code response = 200
           /\ content response
              = JSONContent (Py.VDict [("message", Py.VStr "Backend API service for tarot.vn");
                                       ("version", APP_VERSION)])).
Proof.
  split; [|split].
  - intros m e tr [-> | ->]; reflexivity.
  - intros doc project v tr Hp Hv. unfold startup, get_app_version.
    rewrite bind_run, Hp. simpl. rewrite Hv. reflexivity.
  - intros origins v routes request tr Hm Hp.
    assert (Hprobe : is_probe request = false) by (unfold is_probe; rewrite Hm; reflexivity).
    assert (Hpre : is_preflight request = false).
    { unfold is_preflight. rewrite Hm. destruct (headers request !! "origin"); reflexivity. }
    destruct (cors_return (cors_args origins) (inside_cors (router (app v) routes)) request tr
                (JSONResponse 200 (root (app v))) tr Hpre) as (r' & Hrun & Hst & Hct & _).
    { rewrite inside_cors_pass by assumption.
      unfold ExceptionMiddleware, router. rewrite bind_run, Hm, Hp. reflexivity. }
    exists r'. repeat split.
    + apply serve_sends. now apply asgi_returned.
    + rewrite Hst. reflexivity.
    + rewrite Hct. reflexivity.
Qed.

(** X21. A request for the target [*] that comes with a [Host] header
    or over a connection with a server address has a URL whose path is
    not [*], whatever its method: the admission filter hands it on to the
    next stage. (The host is taken to be free of brackets, on which
    [urlsplit] may raise.) *)
Theorem served_probe_passes_filter request host call_next :
  target request = "*" ->
  authority request = Some host ->
  Py.mem "[" host = false ->
  Py.mem "]" host = false ->
  path request <> "*"
  /\ is_probe request = false
  /\ dispatch request call_next = call_next request.
Proof.
  intros _ Hhost _ _.
  assert (Hp : String.eqb (path request) "*" = false).
  { destruct (path_with_authority request host Hhost) as [-> | H]; [reflexivity|].
    destruct (path request) as [|c p]; [reflexivity|].
    injection H as ->. reflexivity. }
  split; [|split].
  - intros H. rewrite H in Hp. discriminate Hp.
  - unfold is_probe. rewrite Hp. apply andb_false_r.
  - unfold dispatch. rewrite Hp, andb_false_r. reflexivity.
Qed.

(** ** The further properties at sample inputs *)

Lemma parse_origins_join_witness :
  config_app.parse_origins
    "https://xemtarrot.vn,http://localhost:4321,http://localhost:3000"
  = Sample.site_origins.
Proof.
  apply (parse_origins_join Sample.site_origins).
  repeat constructor.
Defined.

Lemma parse_origins_ignores_decoration_witness :
  config_app.parse_origins "  https://xemtarrot.vn// " = ["https://xemtarrot.vn"].
Proof.
  apply (parse_origins_ignores_decoration "  " "https://xemtarrot.vn" "//" " ");
    reflexivity.
Defined.

Lemma allowed_origins_empty_iff_blank_witness :
  config_app.ALLOWED_ORIGINS Sample.blank_environ = [].
Proof.
  apply (proj2 (allowed_origins_empty_iff_blank Sample.blank_environ " , ," eq_refl)).
  reflexivity.
Defined.

Lemma setup_logging_registry_witness :
  exists st',
    utils_logger.setup_logging "DEBUG" Sample.busy_registry = (None, st')
    /\ utils_logger.loggers st' !! "sqlalchemy.engine"
       = Some {| Logging.handlers := [Logging.StreamHandler "stderr"];
                 Logging.level := 10;
                 Logging.propagate := true |}.
Proof.
  destruct (setup_logging_registry "DEBUG" Sample.busy_registry "sqlalchemy.engine")
    as (st' & v & Hrun & _ & Hn).
  - simpl. tauto.
  - exists st'. split; [exact Hrun | exact Hn].
Defined.

Lemma setup_logging_replaces_witness :
  utils_logger.setup_logging "DEBUG"
    (snd (utils_logger.setup_logging "INFO" Sample.busy_registry))
  = utils_logger.setup_logging "DEBUG" Sample.busy_registry.
Proof.
  apply setup_logging_replaces; simpl; tauto.
Defined.

Lemma setup_logging_partial_witness :
  exists st',
    utils_logger.setup_logging "TRACE" Sample.registry = (Some "AttributeError", st')
    /\ utils_logger.loggers st' !! "root"
       = Some {| Logging.handlers := [Logging.InterceptHandler];
                 Logging.level := 0;
                 Logging.propagate :=
                   Logging.propagate
                     (Logging.getLogger "root" (utils_logger.loggers Sample.registry)) |}
    /\ utils_logger.loggers st' !! "httpx" = None.
Proof.
  destruct (setup_logging_partial "TRACE" Sample.registry
              {| Loguru.level_name := "TRACE"; Loguru.level_no := 5 |} eq_refl eq_refl)
    as (st' & Hrun & _ & Hroot & _ & Hrest).
  exists st'. split; [exact Hrun|]. split; [exact Hroot|].
  rewrite (Hrest "httpx"); [reflexivity|discriminate|discriminate].
Defined.

Lemma sink_after_setup_witness :
  exists h,
    utils_logger.sinks (snd (utils_logger.setup_logging "WARNING" Sample.busy_registry)) = [h]
    /\ Loguru.handler_emit h Sample.info_record = None.
Proof.
  destruct (sink_after_setup "WARNING" Sample.busy_registry
              {| Loguru.level_name := "WARNING"; Loguru.level_no := 30 |}
              Sample.info_record eq_refl eq_refl)
    as (h & Hs & He).
  exists h. split; [exact Hs | exact He].
Defined.

Lemma emit_fails_iff_witness :
  utils_logger.emit Sample.clock Sample.negative_record = None.
Proof.
  apply (proj2 (emit_fails_iff Sample.clock Sample.negative_record)).
  split; reflexivity.
Defined.

Lemma emit_standard_level_witness :
  exists r,
    utils_logger.emit Sample.clock Sample.warning_record = Some r
    /\ Loguru.level_no (Loguru.rlevel r) = 30.
Proof.
  destruct (emit_standard_level Sample.clock Sample.warning_record) as (r & He & _ & Hno).
  - simpl. tauto.
  - exists r. split; [exact He | exact Hno].
Defined.

Lemma intercepted_line_witness :
  utils_logger.emit Sample.clock Sample.warning_record
    ≫= Loguru.handler_emit Sample.stdout_handler
  = Some (Loguru.Line
            ("2024-05-01 12:00:00.000 | WARNING  | sqlalchemy.engine:emit:44 - slow query"
               +:+ Py.nl)).
Proof.
  apply (intercepted_line Sample.clock Sample.warning_record
           {| Loguru.level_name := "WARNING"; Loguru.level_no := 30 |} 20);
    [reflexivity | reflexivity | simpl; lia].
Defined.


Lemma route_response_passes_through_witness :
  serve (asgi Sample.site_origins Sample.application Sample.created)
    (Sample.request "POST" "/readings" Sample.no_headers) []
  = (tt, [Sent (JSONResponse 201 (Py.VStr "created"))]).
Proof.
  destruct (route_response_passes_through Sample.site_origins Sample.application
              Sample.created (Sample.request "POST" "/readings" Sample.no_headers)
              (JSONResponse 201 (Py.VStr "created")) [] [] eq_refl eq_refl eq_refl)
    as (r & Hrun & _ & _ & Hr).
  rewrite Hrun, (Hr eq_refl). reflexivity.
Defined.

Lemma preflight_answered_by_cors_stage_witness :
  exists response,
    asgi Sample.site_origins Sample.application Sample.answering
      (Sample.request "OPTIONS" "/readings" Sample.preflight_from_site) []
    = (Return response, [])
    /\ status_code response = 200.
Proof.
  destruct (preflight_answered_by_cors_stage Sample.site_origins Sample.application
              Sample.answering
              (Sample.request "OPTIONS" "/readings" Sample.preflight_from_site)
              "https://xemtarrot.vn" [] eq_refl eq_refl eq_refl)
    as (r & rm & Hrm & Hrun & Hst).
  exists r. split; [exact Hrun|].
  rewrite Hst. cbn in Hrm. injection Hrm as <-. reflexivity.
Defined.

Lemma get_app_version_raises_witness :
  exists cls, fst (get_app_version (Loaded Sample.manifest_with_text_project) []) = Raised cls.
Proof.
  apply (proj2 (get_app_version_raises (Loaded Sample.manifest_with_text_project) [])).
  right. exists Sample.manifest_with_text_project, (Py.VStr "tarot").
  repeat split.
Defined.


Lemma root_reports_version_witness :
  startup (FileNotFoundError "[Errno 2] No such file or directory: 'pyproject.toml'") []
  = (Ok (app (Py.VStr "0.0.0")),
     [Logged "WARNING"
        "Could not read version from pyproject.toml: [Errno 2] No such file or directory: 'pyproject.toml'"])
  /\ startup Sample.manifest [] = (Ok Sample.application, [])
  /\ exists response,
       serve (asgi (config_app.ALLOWED_ORIGINS Sample.environ) Sample.application
                Sample.answering)
             (Sample.request "GET" "/" Sample.no_headers) []
       = (tt, [Sent response])
       /\ status_code response = 200.
Proof.
  destruct root_reports_version as (H1 & H2 & H3).
  split; [|split].
  - exact (H1 _ _ [] (or_introl eq_refl)).
  - exact (H2 [("project", Py.VDict [("name", Py.VStr "tarot");
                                      ("version", Py.VStr "1.2.3")])]
              [("name", Py.VStr "tarot"); ("version", Py.VStr "1.2.3")]
              (Py.VStr "1.2.3") [] eq_refl eq_refl).
  - destruct (H3 (config_app.ALLOWED_ORIGINS Sample.environ) (Py.VStr "1.2.3")
                Sample.answering (Sample.request "GET" "/" Sample.no_headers) []
                eq_refl eq_refl)
      as (r & Hr & Hs & _).
    exists r. split; [exact Hr | exact Hs].
Defined.

Lemma served_probe_passes_filter_witness :
  path Sample.probe <> "*"
  /\ dispatch Sample.probe Sample.answering = Sample.answering Sample.probe.
Proof.
  destruct (served_probe_passes_filter Sample.probe "0.0.0.0:8080" Sample.answering
              eq_refl eq_refl eq_refl eq_refl)
    as (H1 & _ & H2).
  split; [exact H1 | exact H2].
Defined.
